(** * Synacor virtual machine: a shallow embedding of the Go sources

    The development follows the two source files of the repository:
    - [main.go]: [readProgram], which decodes the program image, and the
      composition [NewVirtualMachine(readProgram(...))] of [main];
    - the virtual machine file: the [VirtualMachine] struct, its
      constructor, the fetch/execute loop [Run] and one method per opcode.

    Go values are modelled as follows.
    - [Number] is [uint16]: a [Z], with the wrap-around modulo 65536 written
      out wherever Go truncates (additions, products, complement, conversions
      from [int] and [rune]).
    - [int] (the program counter [memoryIndex], register indices) is a [Z].
    - Arrays and slices are lists; an index expression is a checked lookup
      which panics out of range, as the Go runtime does.
    - [os.Exit(0)], [log.Fatalf] and run-time panics end the process: they
      are the outcomes [Exited] and [Crashed] of a state-and-exit monad whose
      state (the machine and the console) survives up to the point of exit. *)

From Stdlib Require Import ZArith Lia List Bool.
From Stdlib Require Import Strings.Byte.
From stdpp Require Import base list.
Import ListNotations.

Local Open Scope Z_scope.

(** ** Process outcomes *)

(** The ways in which the Go process dies abnormally.  The first three are
    the [log.Fatalf] calls and the explicit [panic] of the sources, the others
    are panics of the Go runtime. *)
Inductive Fault : Type :=
| InvalidValue (n : Z)                          (* log.Fatalf("Invalid value %d") *)
| UnknownOpcode (opcode value address : Z)      (* log.Fatalf("Unknown opcode ...") *)
| InputFailure                                  (* log.Fatalf("Failed to read input") *)
| StackUnderflow                                (* panic("Stack underflow") *)
| IndexOutOfRange (index : Z) (length : nat)    (* index out of range [i] with length n *)
| DivideByZero                                  (* integer divide by zero *)
| SliceBoundsOutOfRange (high capacity : nat).  (* slice bounds out of range [:h] with capacity c *)

Inductive Outcome (A : Type) : Type :=
| Continue (a : A)      (* the call returns [a] *)
| Exited                (* os.Exit(0) *)
| Crashed (f : Fault).  (* fatal log message or panic *)

Arguments Continue {A} a.
Arguments Exited {A}.
Arguments Crashed {A} f.

(** ** Numbers *)

Definition modulo : Z := 32768.

(** Conversion to [Number] ([uint16]) of a wider integer. *)
Definition Number (n : Z) : Z := n mod 65536.

(** Go's unary [^] on a [uint16]: exclusive or with the all-ones word. *)
Definition complement (n : Z) : Z := Z.lxor 65535 n.

(** An index expression [a[i]] with [i] of an integer type. *)
Definition index {A : Type} (a : list A) (i : Z) : option A :=
  if 0 <=? i then a !! Z.to_nat i else None.

(** ** main.go: the program loader *)

Definition byteValue (b : byte) : Z := Z.of_N (Byte.to_N b).

(** A Go byte slice: the elements of the underlying array from the start of
    the slice up to its capacity, and the length of the slice. *)
Record ByteSlice : Type := mkByteSlice {
  backing : list byte;
  len : nat
}.

Definition cap (b : ByteSlice) : nat := length (backing b).

(** The slice of exactly the given bytes, without spare capacity. *)
Definition sliceOf (bytes : list byte) : ByteSlice :=
  {| backing := bytes; len := length bytes |}.

(** The simple slice expression [b[lo:hi]]: legal when [lo <= hi <= cap(b)]. *)
Definition subslice (b : ByteSlice) (lo hi : nat) : Outcome (list byte) :=
  if (lo <=? hi)%nat && (hi <=? cap b)%nat
  then Continue (take (hi - lo)%nat (drop lo (backing b)))
  else Crashed (SliceBoundsOutOfRange hi (cap b)).

(** [binary.LittleEndian.Uint16]: [uint16(b[0]) | uint16(b[1])<<8]. *)
Definition Uint16 (b : list byte) : Outcome Z :=
  match b with
  | b0 :: b1 :: _ => Continue (Z.lor (byteValue b0) (Z.shiftl (byteValue b1) 8))
  | _ => Crashed (IndexOutOfRange 1 (length b))
  end.

(** The loop of [readProgram], [for i := 0; i < len(b); i += 2].  The fuel
    bounds the number of iterations; [None] means that it ran out. *)
Fixpoint readProgramLoop (fuel : nat) (b : ByteSlice) (i : nat) (result : list Z)
  : option (Outcome (list Z)) :=
  if (i <? len b)%nat then
    match fuel with
    | O => None
    | S fuel' =>
        match subslice b i (i + 2) with
        | Continue chunk =>
            match Uint16 chunk with
            | Continue w => readProgramLoop fuel' b (i + 2) (result ++ [Number w])
            | Exited => Some Exited
            | Crashed f => Some (Crashed f)
            end
        | Exited => Some Exited
        | Crashed f => Some (Crashed f)
        end
    end
  else Some (Continue result).

Definition readProgram (b : ByteSlice) : option (Outcome (list Z)) :=
  readProgramLoop (len b) b 0 [].

(** ** The virtual machine *)

Record VirtualMachine : Type := mkVirtualMachine {
  memory : list Z;      (* [32767]Number *)
  registers : list Z;   (* [8]Number *)
  stack : list Z;       (* []Number, top of stack last *)
  memoryIndex : Z;      (* int *)
  input : list Z        (* []rune *)
}.

Definition memoryLength : nat := Z.to_nat 32767.
Definition registersLength : nat := 8.

(** The built-in [copy(dst, src)]: the first [min(len(dst), len(src))]
    elements of [dst] are overwritten. *)
Definition copy (dst src : list Z) : list Z :=
  take (length dst) src ++ drop (length src) dst.

Definition NewVirtualMachine (program : list Z) : VirtualMachine :=
  {| memory := copy (replicate memoryLength 0) program;
     registers := replicate registersLength 0;
     stack := [];
     memoryIndex := 0;
     input := [] |}.

(** [NewVirtualMachine(readProgram(b))], as composed in [main]. *)
Definition loadProgram (b : ByteSlice) : option (Outcome VirtualMachine) :=
  match readProgram b with
  | Some (Continue program) => Some (Continue (NewVirtualMachine program))
  | Some Exited => Some Exited
  | Some (Crashed f) => Some (Crashed f)
  | None => None
  end.

(** Field updates of the struct. *)
Definition setMemory (m : list Z) (vm : VirtualMachine) : VirtualMachine :=
  {| memory := m; registers := registers vm; stack := stack vm;
     memoryIndex := memoryIndex vm; input := input vm |}.

Definition setRegisters (r : list Z) (vm : VirtualMachine) : VirtualMachine :=
  {| memory := memory vm; registers := r; stack := stack vm;
     memoryIndex := memoryIndex vm; input := input vm |}.

Definition setStack (s : list Z) (vm : VirtualMachine) : VirtualMachine :=
  {| memory := memory vm; registers := registers vm; stack := s;
     memoryIndex := memoryIndex vm; input := input vm |}.

Definition setMemoryIndex (i : Z) (vm : VirtualMachine) : VirtualMachine :=
  {| memory := memory vm; registers := registers vm; stack := stack vm;
     memoryIndex := i; input := input vm |}.

Definition setInput (r : list Z) (vm : VirtualMachine) : VirtualMachine :=
  {| memory := memory vm; registers := registers vm; stack := stack vm;
     memoryIndex := memoryIndex vm; input := r |}.

(** The console of the process: what the coming [Read] calls on standard
    input will return, one chunk of bytes per call (a line at a time on a
    terminal, blocks of any shape on a pipe or a file; an empty chunk, or no
    chunk left, is the end of input), and the characters printed so far. *)
Record Console : Type := mkConsole {
  stdin : list (list byte);
  stdout : list Z
}.

Definition State : Type := VirtualMachine * Console.

(** *** The monad of the methods

    A method of [*VirtualMachine] mutates the machine and the console and
    either returns, or exits the process, or crashes it. *)
Definition M (A : Type) : Type := State -> Outcome A * State.

Definition pure {A : Type} (a : A) : M A := fun s => (Continue a, s).

Definition bind {A B : Type} (m : M A) (k : A -> M B) : M B :=
  fun s =>
    match m s with
    | (Continue a, s') => k a s'
    | (Exited, s') => (Exited, s')
    | (Crashed f, s') => (Crashed f, s')
    end.

Definition crash {A : Type} (f : Fault) : M A := fun s => (Crashed f, s).
Definition exit {A : Type} : M A := fun s => (Exited, s).

Definition getVM : M VirtualMachine := fun s => (Continue (fst s), s).

Definition updateVM (f : VirtualMachine -> VirtualMachine) : M unit :=
  fun s => (Continue tt, (f (fst s), snd s)).

Definition checked {A : Type} (o : option A) (f : Fault) : M A :=
  match o with
  | Some a => pure a
  | None => crash f
  end.

Declare Scope vm_scope.
Delimit Scope vm_scope with vm.
Notation "'let*' x ':=' m 'in' k" := (bind m (fun x => k))
  (at level 10, x name, m at level 100, k at level 200) : vm_scope.
Notation "m '>>' k" := (bind m (fun _ => k))
  (at level 90, right associativity) : vm_scope.
Local Open Scope vm_scope.

(** *** Fetching and operand resolution *)

Definition current : M Z :=
  let* vm := getVM in
  checked (index (memory vm) (memoryIndex vm))
          (IndexOutOfRange (memoryIndex vm) (length (memory vm))).

Definition next : M Z :=
  updateVM (fun vm => setMemoryIndex (memoryIndex vm + 1) vm) >>
  current.

Definition toRegisterIndex (n : Z) : Z := n - modulo.

Definition toValue (n : Z) : M Z :=
  if 32776 <=? n then crash (InvalidValue n)
  else if modulo <=? n then
    let* vm := getVM in
    checked (index (registers vm) (toRegisterIndex n))
            (IndexOutOfRange (toRegisterIndex n) (length (registers vm)))
  else pure n.

(** The assignment [vm.registers[registerIndex] = value]; the bounds check
    happens when the assignment is carried out, after the right-hand side
    has been evaluated. *)
Definition assignRegister (registerIndex value : Z) : M unit :=
  let* vm := getVM in
  if (0 <=? registerIndex) && (registerIndex <? Z.of_nat (length (registers vm)))
  then updateVM (fun vm => setRegisters (<[Z.to_nat registerIndex := value]> (registers vm)) vm)
  else crash (IndexOutOfRange registerIndex (length (registers vm))).

(** The assignment [vm.memory[memoryIndex] = value]. *)
Definition assignMemory (address value : Z) : M unit :=
  let* vm := getVM in
  if (0 <=? address) && (address <? Z.of_nat (length (memory vm)))
  then updateVM (fun vm => setMemory (<[Z.to_nat address := value]> (memory vm)) vm)
  else crash (IndexOutOfRange address (length (memory vm))).

(** *** One method per opcode

    The methods whose Go name is a reserved word or a standard constant of
    Rocq ([and], [or], [not], [mod], [eq], [set]) carry a trailing
    underscore. *)

Definition and_ : M unit :=
  let* n := next in
  let registerIndex := toRegisterIndex n in
  let* n1 := next in
  let* value1 := toValue n1 in
  let* n2 := next in
  let* value2 := toValue n2 in
  assignRegister registerIndex (Z.land value1 value2 mod modulo).

Definition or_ : M unit :=
  let* n := next in
  let registerIndex := toRegisterIndex n in
  let* n1 := next in
  let* value1 := toValue n1 in
  let* n2 := next in
  let* value2 := toValue n2 in
  assignRegister registerIndex (Z.lor value1 value2 mod modulo).

Definition not_ : M unit :=
  let* n := next in
  let registerIndex := toRegisterIndex n in
  let* n1 := next in
  let* value := toValue n1 in
  assignRegister registerIndex (complement value mod modulo).

Definition add : M unit :=
  let* n := next in
  let registerIndex := toRegisterIndex n in
  let* n1 := next in
  let* value1 := toValue n1 in
  let* n2 := next in
  let* value2 := toValue n2 in
  assignRegister registerIndex (Number (value1 + value2) mod modulo).

Definition mul : M unit :=
  let* n := next in
  let registerIndex := toRegisterIndex n in
  let* n1 := next in
  let* value1 := toValue n1 in
  let* n2 := next in
  let* value2 := toValue n2 in
  assignRegister registerIndex (Number (value1 * value2) mod modulo).

Definition mod_ : M unit :=
  let* n := next in
  let registerIndex := toRegisterIndex n in
  let* n1 := next in
  let* value1 := toValue n1 in
  let* n2 := next in
  let* value2 := toValue n2 in
  if value2 =? 0 then crash DivideByZero
  else assignRegister registerIndex ((value1 mod value2) mod modulo).

Definition gt : M unit :=
  let* n := next in
  let registerIndex := toRegisterIndex n in
  let* n1 := next in
  let* value1 := toValue n1 in
  let* n2 := next in
  let* value2 := toValue n2 in
  if value2 <? value1 then assignRegister registerIndex 1
  else assignRegister registerIndex 0.

Definition eq_ : M unit :=
  let* n := next in
  let registerIndex := toRegisterIndex n in
  let* n1 := next in
  let* value1 := toValue n1 in
  let* n2 := next in
  let* value2 := toValue n2 in
  if value1 =? value2 then assignRegister registerIndex 1
  else assignRegister registerIndex 0.

Definition halt : M unit := exit.

Definition jump : M unit :=
  let* n := next in
  let* target := toValue n in
  updateVM (setMemoryIndex (target - 1)).

Definition jf : M unit :=
  let* n := next in
  let* condition := toValue n in
  if condition =? 0 then jump else next >> pure tt.

Definition jt : M unit :=
  let* n := next in
  let* condition := toValue n in
  if negb (condition =? 0) then jump else next >> pure tt.

Definition noop : M unit := pure tt.

(** [string(rune(v))]: the character of code point [v]; a code point of the
    surrogate range is not a valid rune and converts to U+FFFD. *)
Definition runeOf (v : Z) : Z :=
  if (55296 <=? v) && (v <=? 57343) then 65533 else v.

Definition emit (c : Z) : M unit :=
  fun s => (Continue tt,
            (fst s, {| stdin := stdin (snd s); stdout := stdout (snd s) ++ [c] |})).

Definition print : M unit :=
  let* n := next in
  let* value := toValue n in
  emit (runeOf value).

(** The part of a chunk up to and including its first [delim], if it has
    one. *)
Fixpoint upToDelim (delim : byte) (chunk : list byte) : option (list byte) :=
  match chunk with
  | [] => None
  | c :: rest =>
      if Byte.eqb c delim then Some [c]
      else match upToDelim delim rest with
           | Some head => Some (c :: head)
           | None => None
           end
  end.

(** [ReadString(delim)] of a [bufio.Reader] that was just created on
    standard input: the reader fills its buffer with one [Read] call after
    the other until a chunk holds the delimiter, and returns what it has read
    up to and including the first delimiter.  What the last chunk holds after
    the delimiter stays in the buffer of the reader, which [ask] throws away.
    The end of input before a delimiter is an error.  The second component
    is what is left for later [Read] calls. *)
Fixpoint ReadString (delim : byte) (reads : list (list byte)) (line : list byte)
  : option (list byte) * list (list byte) :=
  match reads with
  | [] => (None, [])
  | [] :: rest => (None, rest)
  | chunk :: rest =>
      match upToDelim delim chunk with
      | Some head => (Some (line ++ head), rest)
      | None => ReadString delim rest (line ++ chunk)
      end
  end.

(** [bufio.NewReader(os.Stdin)] followed by [reader.ReadString('\n')], with
    the fatal log call on error. *)
Definition readLine : M (list byte) :=
  fun s =>
    match ReadString x0a (stdin (snd s)) [] with
    | (Some line, rest) =>
        (Continue line, (fst s, {| stdin := rest; stdout := stdout (snd s) |}))
    | (None, rest) =>
        (Crashed InputFailure,
         (fst s, {| stdin := rest; stdout := stdout (snd s) |}))
    end.

(** The continuation bytes of UTF-8, [locb <= b && b <= hicb]. *)
Definition continuation (b : byte) : bool :=
  (128 <=? byteValue b) && (byteValue b <=? 191).

Definition runeError : Z := 65533.

(** The decoding of the character that starts a string with a byte of 128 or
    more, as the Go runtime does it for a [range] over a string: the
    character and the number of bytes it takes.  A malformed, overlong or
    surrogate encoding gives [runeError] and takes one byte. *)
Definition decoderune (s : list byte) : Z * nat :=
  match s with
  | [] => (runeError, 1%nat)
  | s0 :: t =>
      let b0 := byteValue s0 in
      if (192 <=? b0) && (b0 <? 224) then
        match t with
        | s1 :: _ =>
            let r := Z.lor (Z.shiftl (Z.land b0 31) 6) (Z.land (byteValue s1) 63) in
            if continuation s1 && (127 <? r) then (r, 2%nat)
            else (runeError, 1%nat)
        | _ => (runeError, 1%nat)
        end
      else if (224 <=? b0) && (b0 <? 240) then
        match t with
        | s1 :: s2 :: _ =>
            let r := Z.lor (Z.lor (Z.shiftl (Z.land b0 15) 12)
                                  (Z.shiftl (Z.land (byteValue s1) 63) 6))
                           (Z.land (byteValue s2) 63) in
            if continuation s1 && continuation s2
               && (2047 <? r) && negb ((55296 <=? r) && (r <=? 57343))
            then (r, 3%nat)
            else (runeError, 1%nat)
        | _ => (runeError, 1%nat)
        end
      else if (240 <=? b0) && (b0 <? 248) then
        match t with
        | s1 :: s2 :: s3 :: _ =>
            let r := Z.lor (Z.lor (Z.lor (Z.shiftl (Z.land b0 7) 18)
                                         (Z.shiftl (Z.land (byteValue s1) 63) 12))
                                  (Z.shiftl (Z.land (byteValue s2) 63) 6))
                           (Z.land (byteValue s3) 63) in
            if continuation s1 && continuation s2 && continuation s3
               && (65535 <? r) && (r <=? 1114111)
            then (r, 4%nat)
            else (runeError, 1%nat)
        | _ => (runeError, 1%nat)
        end
      else (runeError, 1%nat)
  end.

(** The conversion [[]rune(s)]: a [range] over the string, which takes a
    byte below 128 as it is and decodes the others.  Every character takes
    at least one byte, so the length of the string is fuel enough. *)
Fixpoint runesLoop (fuel : nat) (s : list byte) : list Z :=
  match fuel, s with
  | S fuel', s0 :: _ =>
      let (r, size) :=
        if byteValue s0 <? 128 then (byteValue s0, 1%nat) else decoderune s in
      r :: runesLoop fuel' (drop size s)
  | _, _ => []
  end.

Definition runes (s : list byte) : list Z := runesLoop (length s) s.

Definition ask : M unit :=
  let* vm := getVM in
  (if (length (input vm) =? 0)%nat
   then let* line := readLine in updateVM (setInput (runes line))
   else pure tt) >>
  let* n := next in
  let registerIndex := toRegisterIndex n in
  let* vm := getVM in
  let* c := checked (index (input vm) 0) (IndexOutOfRange 0 (length (input vm))) in
  assignRegister registerIndex (Number c) >>
  updateVM (fun vm => setInput (drop 1 (input vm)) vm).

Definition pop : M unit :=
  let* vm := getVM in
  let l := length (stack vm) in
  if (l =? 0)%nat then crash StackUnderflow
  else
    let* value := checked (stack vm !! (l - 1)%nat)
                          (IndexOutOfRange (Z.of_nat l - 1) l) in
    updateVM (setStack (take (l - 1)%nat (stack vm))) >>
    let* n := next in
    let registerIndex := toRegisterIndex n in
    assignRegister registerIndex value.

Definition push : M unit :=
  let* n := next in
  let* value := toValue n in
  updateVM (fun vm => setStack (stack vm ++ [value]) vm).

Definition read : M unit :=
  let* n := next in
  let registerIndex := toRegisterIndex n in
  let* n1 := next in
  let* address := toValue n1 in
  let* vm := getVM in
  let* value := checked (index (memory vm) address)
                        (IndexOutOfRange address (length (memory vm))) in
  assignRegister registerIndex value.

Definition write : M unit :=
  let* n := next in
  let* address := toValue n in
  let* n1 := next in
  let* value := toValue n1 in
  assignMemory address value.

Definition call : M unit :=
  updateVM (fun vm => setStack (stack vm ++ [Number (memoryIndex vm + 2)]) vm) >>
  jump.

Definition ret : M unit :=
  let* vm := getVM in
  let l := length (stack vm) in
  if (l =? 0)%nat then halt
  else
    let* top := checked (stack vm !! (l - 1)%nat)
                        (IndexOutOfRange (Z.of_nat l - 1) l) in
    updateVM (setMemoryIndex (top - 1)) >>
    updateVM (setStack (take (l - 1)%nat (stack vm))).

Definition set_ : M unit :=
  let* n := next in
  let registerIndex := toRegisterIndex n in
  let* n1 := next in
  let* value := toValue n1 in
  assignRegister registerIndex value.

(** *** The fetch/execute loop *)

(** The [switch] of [Run]. *)
Definition execute (opcode : Z) : M unit :=
  match opcode with
  | 0 => halt
  | 1 => set_
  | 2 => push
  | 3 => pop
  | 4 => eq_
  | 5 => gt
  | 6 => jump
  | 7 => jt
  | 8 => jf
  | 9 => add
  | 10 => mul
  | 11 => mod_
  | 12 => and_
  | 13 => or_
  | 14 => not_
  | 15 => read
  | 16 => write
  | 17 => call
  | 18 => ret
  | 19 => print
  | 20 => ask
  | 21 => noop
  | _ =>
      let* value := current in
      let* vm := getVM in
      crash (UnknownOpcode opcode value (memoryIndex vm))
  end.

(** The body of the [for] loop of [Run]: one instruction, then [vm.next()]. *)
Definition step : M unit :=
  let* n := current in
  let* opcode := toValue n in
  execute opcode >>
  next >>
  pure tt.

(** [Run], cut after [fuel] iterations of its endless loop: the outcome is
    [Continue tt] when the machine is still running at that point. *)
Fixpoint Run (fuel : nat) : M unit :=
  match fuel with
  | O => pure tt
  | S fuel' => step >> Run fuel'
  end.

(** ** Vocabulary of the statements *)

(** The word [n] resolves to the value [v] in the machine [vm]. *)
Definition resolvesTo (vm : VirtualMachine) (n v : Z) : Prop :=
  forall io, toValue n (vm, io) = (Continue v, (vm, io)).

(** The specification's reading of a program image: each consecutive pair
    of bytes is an unsigned 16-bit little-endian integer, in order. *)
Fixpoint littleEndianWords (bytes : list byte) : list Z :=
  match bytes with
  | b0 :: b1 :: rest => (byteValue b0 + 256 * byteValue b1) :: littleEndianWords rest
  | _ => []
  end.

(** The number of operand words that the method of each opcode consumes
    with [next] when it runs to its end (the operand column of the
    instruction table). *)
Definition operandCount (opcode : Z) : Z :=
  match opcode with
  | 1 | 7 | 8 | 14 | 15 | 16 => 2
  | 2 | 3 | 6 | 17 | 19 | 20 => 1
  | 4 | 5 | 9 | 10 | 11 | 12 | 13 => 3
  | _ => 0
  end.

(** The words that name a register. *)
Definition isRegisterReference (w : Z) : Prop := 32768 <= w <= 32775.

(** The opcodes whose first operand is a destination ([set], [pop], [eq],
    [gt], [add], [mult], [mod], [and], [or], [not], [rmem], [in]), and those
    among them that do nothing but compute a value into it. *)
Definition destinationOpcodes : list Z := [1; 3; 4; 5; 9; 10; 11; 12; 13; 14; 15; 20].
Definition registerOpcodes : list Z := [1; 4; 5; 9; 10; 11; 12; 13; 14; 15].

(** Operand [k] of the current instruction is in memory and resolves to [v]. *)
Definition operandResolves (vm : VirtualMachine) (k v : Z) : Prop :=
  exists n, index (memory vm) (memoryIndex vm + k) = Some n /\ resolvesTo vm n v.

(** The instruction of a destination opcode raises no fault of its own
    before it assigns the register: its value operands are in memory and
    resolve, the divisor of [mod] is not zero, the address of [rmem] is in
    memory, the stack of [pop] is not empty, [in] has a character to read. *)
Definition faultless (opcode : Z) (vm : VirtualMachine) (io : Console) : Prop :=
  match opcode with
  | 1 | 14 => exists a, operandResolves vm 2 a
  | 4 | 5 | 9 | 10 | 12 | 13 =>
      exists a b, operandResolves vm 2 a /\ operandResolves vm 3 b
  | 11 => exists a b, operandResolves vm 2 a /\ operandResolves vm 3 b /\ b <> 0
  | 15 => exists a v, operandResolves vm 2 a /\ index (memory vm) a = Some v
  | 3 => stack vm <> []
  | 20 => input vm <> []
          \/ (input vm = []
              /\ exists line rest, ReadString x0a (stdin io) [] = (Some line, rest))
  | _ => False
  end.

(** The outcome of an instruction that consumed [k] operand words and stored
    [x] in register [r]. *)
Definition stores (vm : VirtualMachine) (io : Console) (k r x : Z)
  : Outcome unit * State :=
  (Continue tt,
   (setRegisters (<[Z.to_nat r := x]> (registers vm))
      (setMemoryIndex (memoryIndex vm + k) vm), io)).

(** The loop iteration moves the counter to [t]: it completes when [t] is an
    address of the memory array, and dies on the fetch at [t] otherwise. *)
Definition jumpsTo (vm : VirtualMachine) (io : Console) (t : Z) : Prop :=
  (forall w : Z, index (memory vm) t = Some w ->
     step (vm, io) = (Continue tt, (setMemoryIndex t vm, io)))
  /\ (index (memory vm) t = None ->
      step (vm, io) =
      (Crashed (IndexOutOfRange t (length (memory vm))), (setMemoryIndex t vm, io))).

(** The two arrays of the struct have their declared lengths. *)
Definition wellFormed (vm : VirtualMachine) : Prop :=
  length (memory vm) = memoryLength /\ length (registers vm) = registersLength.

(** The opcodes that compute their result: [eq], [gt], [add], [mult], [mod],
    [and], [or], [not]. *)
Definition arithmeticOpcodes : list Z := [4; 5; 9; 10; 11; 12; 13; 14].

(** ** Concrete inputs *)

(** An image of 65538 zero bytes: 32769 words, one more than 32768. *)
Definition oversizeImage : ByteSlice := sliceOf (replicate (Z.to_nat 65538) x00).

(** The four bytes of the first two words of a [set r1 _] instruction, and
    the same image cut after its third byte. *)
Definition evenImage : ByteSlice := sliceOf [x01; x00; x01; x80].
Definition oddImage : ByteSlice := sliceOf [x01; x00; x01].

(** The first three of those four bytes as a slice of the four-byte array. *)
Definition spareImage : ByteSlice :=
  {| backing := [x01; x00; x01; x80]; len := 3 |}.

Definition emptyConsole : Console := {| stdin := []; stdout := [] |}.

(** Three one-instruction programs that use address 32767:
    [rmem r0 32767], [wmem 32767 0] and [jmp 32767]. *)
Definition readTop : VirtualMachine := NewVirtualMachine [15; 32768; 32767].
Definition writeTop : VirtualMachine := NewVirtualMachine [16; 32767; 0].
Definition jumpTop : VirtualMachine := NewVirtualMachine [6; 32767].

(** [add r0 32767 2], and [not r1 5]. *)
Definition addMachine : VirtualMachine := NewVirtualMachine [9; 32768; 32767; 2].
Definition notMachine : VirtualMachine := NewVirtualMachine [14; 32769; 5].

(** [call 4; halt; halt; ret]: the machine before the call and the machine
    after it, about to execute the [ret] at address 4. *)
Definition callMachine : VirtualMachine := NewVirtualMachine [17; 4; 0; 0; 18].
Definition calledMachine : VirtualMachine :=
  setMemoryIndex 4 (setStack [2] callMachine).

(** A lone [halt], and a lone [ret] on the empty stack. *)
Definition haltMachine : VirtualMachine := NewVirtualMachine [0].
Definition retMachine : VirtualMachine := NewVirtualMachine [18].

(** [noop; halt], and [jt 0 5; noop] whose condition is zero. *)
Definition noopMachine : VirtualMachine := NewVirtualMachine [21; 0].
Definition jtMachine : VirtualMachine := NewVirtualMachine [7; 0; 5; 21].

(** [pop] and [set] with the literal 0 in the destination position. *)
Definition popMachine : VirtualMachine := NewVirtualMachine [3; 0].
Definition setMachine : VirtualMachine := NewVirtualMachine [1; 0; 5].

(** The two end-to-end programs of the specification: [jmp 3] over one word
    to a [halt], and [set r0 'A'; out r0; halt]. *)
Definition jumpHaltMachine : VirtualMachine := NewVirtualMachine [6; 3; 0; 0].
Definition printMachine : VirtualMachine :=
  NewVirtualMachine [1; 32768; 65; 19; 32768; 0].

(** [mod r0 7 0]; [push 7; pop r0] before the push and after it;
    [jt 1 3; halt]; [wmem 3 21; halt]; [rmem r0 2]; [out 65]; [in r0] with an
    empty and with a filled input buffer, and a console that holds the line
    "h\n"; the word 22, which is no opcode, and the word 40000, which is no
    value. *)
Definition modZeroMachine : VirtualMachine := NewVirtualMachine [11; 32768; 7; 0].
Definition pushMachine : VirtualMachine := NewVirtualMachine [2; 7; 3; 32768].
Definition pushedMachine : VirtualMachine :=
  setMemoryIndex 2 (setStack [7] pushMachine).
Definition jtTakenMachine : VirtualMachine := NewVirtualMachine [7; 1; 3; 0].
Definition writeMachine : VirtualMachine := NewVirtualMachine [16; 3; 21; 0].
Definition readMachine : VirtualMachine := NewVirtualMachine [15; 32768; 2].
Definition outMachine : VirtualMachine := NewVirtualMachine [19; 65].
Definition askMachine : VirtualMachine := NewVirtualMachine [20; 32768].
Definition askBufferedMachine : VirtualMachine := setInput [105; 10] askMachine.
Definition lineConsole : Console := {| stdin := [[x68; x0a]]; stdout := [] |}.

(** A pipe that delivers two lines, "h" and "i", in one read. *)
Definition pipeConsole : Console :=
  {| stdin := [[x68; x0a; x69; x0a]]; stdout := [] |}.

(** [jmp 0] at address 0. *)
Definition loopMachine : VirtualMachine := NewVirtualMachine [6; 0].

(** Input that ends without a line feed. *)
Definition unterminatedConsole : Console :=
  {| stdin := [[x68]; [x69]]; stdout := [] |}.
Definition unknownMachine : VirtualMachine := NewVirtualMachine [22].
Definition invalidMachine : VirtualMachine := NewVirtualMachine [40000].

(** * Properties *)

(** ** Reasoning tools *)

(** Unfolding of the methods down to the primitive state transformers. *)
Ltac vm_unfold :=
  unfold and_, or_, not_, add, mul, mod_, gt, eq_, set_, read, write, pop,
    push, ask, print, call, ret, jf, jt, jump, halt, noop, next, current,
    toValue, assignRegister, assignMemory, readLine, emit, checked, bind,
    getVM, updateVM, crash, exit, pure in *.

Ltac vm_fields :=
  cbn [fst snd memory registers stack memoryIndex input stdin stdout
       setMemory setRegisters setStack setMemoryIndex setInput] in *.

(** Case analysis on the innermost scrutinee of the goal. *)
Ltac vm_split :=
  match goal with
  | |- context [match ?x with _ => _ end] =>
      lazymatch x with
      | context [match _ with _ => _ end] => fail
      | _ => destruct x eqn:?
      end
  end.

Ltac vm_cases := repeat (vm_split; vm_fields).

(** Boolean tests of the code as propositions. *)
Ltac vm_bool :=
  repeat match goal with
    | H : (_ && _) = true |- _ => apply andb_true_iff in H; destruct H
    | H : (_ && _) = false |- _ => apply andb_false_iff in H
    | H : negb _ = true |- _ => apply negb_true_iff in H
    | H : negb _ = false |- _ => apply negb_false_iff in H
    | H : (_ <=? _) = true |- _ => apply Z.leb_le in H
    | H : (_ <=? _) = false |- _ => apply Z.leb_gt in H
    | H : (_ <? _) = true |- _ => apply Z.ltb_lt in H
    | H : (_ <? _) = false |- _ => apply Z.ltb_ge in H
    | H : (_ =? _) = true |- _ => apply Z.eqb_eq in H
    | H : (_ =? _) = false |- _ => apply Z.eqb_neq in H
    | H : (_ =? _)%nat = true |- _ => apply Nat.eqb_eq in H
    | H : (_ =? _)%nat = false |- _ => apply Nat.eqb_neq in H
    end.

(** *** Index expressions *)

Lemma index_lookup {A : Type} (a : list A) (i : Z) :
  0 <= i -> index a i = a !! Z.to_nat i.
Proof.
  intros Hi. unfold index. destruct (0 <=? i) eqn:E; [reflexivity|].
  apply Z.leb_gt in E. lia.
Qed.

Lemma index_Some_range {A : Type} (a : list A) (i : Z) (x : A) :
  index a i = Some x -> 0 <= i < Z.of_nat (length a).
Proof.
  unfold index. destruct (0 <=? i) eqn:E; [|discriminate].
  apply Z.leb_le in E. intros H. apply lookup_lt_Some in H. lia.
Qed.

Lemma index_in_range {A : Type} (a : list A) (i : Z) :
  0 <= i < Z.of_nat (length a) -> exists x, index a i = Some x.
Proof.
  intros Hi. rewrite index_lookup by lia.
  destruct (lookup_lt_is_Some_2 a (Z.to_nat i)) as [x Hx]; [lia|eauto].
Qed.

(** *** Operand resolution *)

Lemma resolvesTo_registers (vm vm' : VirtualMachine) (n v : Z) :
  registers vm' = registers vm -> resolvesTo vm n v -> resolvesTo vm' n v.
Proof.
  intros Hr H io. specialize (H io). unfold toValue in *.
  destruct (32776 <=? n); [discriminate|].
  destruct (modulo <=? n); [|inversion H; reflexivity].
  vm_unfold. vm_fields. rewrite Hr.
  destruct (index (registers vm) (toRegisterIndex n)); inversion H; reflexivity.
Qed.

Lemma resolvesTo_literal (vm : VirtualMachine) (n : Z) :
  n < modulo -> resolvesTo vm n n.
Proof.
  intros Hn io. unfold modulo in *. vm_unfold. unfold modulo.
  vm_cases; vm_bool; try lia; reflexivity.
Qed.

Lemma resolvesTo_register (vm : VirtualMachine) (n v : Z) :
  32768 <= n <= 32775 -> registers vm !! Z.to_nat (n - 32768) = Some v ->
  resolvesTo vm n v.
Proof.
  intros Hn Hv io. unfold toValue, modulo.
  destruct (32776 <=? n) eqn:E1; vm_bool; [lia|].
  destruct (32768 <=? n) eqn:E2; vm_bool; [|lia].
  vm_unfold. vm_fields. unfold toRegisterIndex, modulo.
  rewrite index_lookup by lia. rewrite Hv. reflexivity.
Qed.


(** ** Operand resolution (section 4.2 of the specification) *)

(** C3: a raw word [w] in a value position resolves to itself when it is in
    [0, 32767], to the content of register [w - 32768] when it is in
    [32768, 32775] (a content that exists in the eight-register file), and
    from 32776 on the process dies on the fatal "Invalid value" log call
    without producing a value; the machine is left as it was in all cases. *)
Theorem toValue_resolution (vm : VirtualMachine) (io : Console) (w : Z) :
  (0 <= w <= 32767 -> toValue w (vm, io) = (Continue w, (vm, io)))
  /\ (32768 <= w <= 32775 ->
      (forall v, registers vm !! Z.to_nat (w - 32768) = Some v ->
                 toValue w (vm, io) = (Continue v, (vm, io)))
      /\ (length (registers vm) = registersLength ->
          exists v, registers vm !! Z.to_nat (w - 32768) = Some v))
  /\ (32776 <= w -> toValue w (vm, io) = (Crashed (InvalidValue w), (vm, io))).
Proof.
  split; [|split].
  - intros Hw. apply resolvesTo_literal. unfold modulo. lia.
  - intros Hw. split.
    + intros v Hv. now apply resolvesTo_register.
    + intros Hlen. apply lookup_lt_is_Some_2. rewrite Hlen.
      unfold registersLength. lia.
  - intros Hw. unfold toValue. destruct (32776 <=? w) eqn:E; [reflexivity|].
    apply Z.leb_gt in E. lia.
Qed.

Lemma toValue_resolution_witness :
  toValue 5 (addMachine, emptyConsole) = (Continue 5, (addMachine, emptyConsole))
  /\ toValue 32769 (addMachine, emptyConsole) = (Continue 0, (addMachine, emptyConsole))
  /\ toValue 40000 (addMachine, emptyConsole) =
       (Crashed (InvalidValue 40000), (addMachine, emptyConsole)).
Proof.
  split; [|split].
  - apply (proj1 (toValue_resolution addMachine emptyConsole 5)). lia.
  - apply (proj1 (proj2 (toValue_resolution addMachine emptyConsole 32769))); [lia|].
    reflexivity.
  - apply (proj2 (proj2 (toValue_resolution addMachine emptyConsole 40000))). lia.
Defined.

(** ** The program loader (section 4.1 of the specification) *)

Lemma byteValue_range (b : byte) : 0 <= byteValue b < 256.
Proof.
  unfold byteValue. pose proof (Byte.to_N_bounded b) as H. lia.
Qed.

Lemma lor_shiftl_8 (a c : Z) :
  0 <= a < 256 -> 0 <= c -> Z.lor a (Z.shiftl c 8) = a + 256 * c.
Proof.
  intros Ha Hc.
  assert (Hland : Z.land a (Z.shiftl c 8) = 0).
  { apply Z.bits_inj'. intros n Hn. rewrite Z.land_spec, Z.bits_0.
    destruct (Z.lt_ge_cases n 8) as [Hlt|Hge].
    - rewrite (Z.shiftl_spec_low c 8 n Hlt). apply andb_false_r.
    - replace a with (a mod 2 ^ 8) by (apply Z.mod_small; lia).
      rewrite Z.mod_pow2_bits_high by lia. reflexivity. }
  rewrite <- Z.lxor_lor by exact Hland.
  rewrite <- Z.add_nocarry_lxor by exact Hland.
  rewrite Z.shiftl_mul_pow2 by lia. lia.
Qed.

Lemma Uint16_pair (b0 b1 : byte) (rest : list byte) :
  Uint16 (b0 :: b1 :: rest) = Continue (byteValue b0 + 256 * byteValue b1).
Proof.
  unfold Uint16. f_equal. apply lor_shiftl_8.
  - apply byteValue_range.
  - apply byteValue_range.
Qed.

Lemma Number_small (n : Z) : 0 <= n < 65536 -> Number n = n.
Proof. intros H. unfold Number. apply Z.mod_small. exact H. Qed.

Lemma littleEndianWords_word (bytes : list byte) :
  Forall (fun w => 0 <= w < 65536) (littleEndianWords bytes).
Proof.
  remember (length bytes) as n eqn:Hn.
  assert (Hle : (length bytes <= n)%nat) by lia. clear Hn.
  revert bytes Hle. induction n as [|n IH]; intros bytes Hle.
  - destruct bytes; [constructor|cbn in Hle; lia].
  - destruct bytes as [|b0 [|b1 rest]]; cbn [littleEndianWords]; try constructor.
    + pose proof (byteValue_range b0). pose proof (byteValue_range b1). lia.
    + apply IH. cbn [length] in Hle. lia.
Qed.

(** The words of an image, addressed: word [k] is made of bytes [2k] (low)
    and [2k+1] (high). *)
Lemma littleEndianWords_lookup (bytes : list byte) (k : nat) (b0 b1 : byte) :
  bytes !! (2 * k)%nat = Some b0 -> bytes !! (2 * k + 1)%nat = Some b1 ->
  littleEndianWords bytes !! k = Some (byteValue b0 + 256 * byteValue b1).
Proof.
  revert bytes. induction k as [|k IH]; intros bytes H0 H1.
  - destruct bytes as [|c0 [|c1 rest]]; cbn in *; try discriminate.
    congruence.
  - pose proof (lookup_lt_Some _ _ _ H1) as Hlen.
    destruct bytes as [|c0 [|c1 rest]]; cbn [length] in Hlen; try lia.
    cbn [littleEndianWords]. rewrite lookup_cons_ne_0 by lia.
    replace (Nat.pred (S k)) with k by lia. apply IH.
    + replace (2 * S k)%nat with (S (S (2 * k))) in H0 by lia. exact H0.
    + replace (2 * S k + 1)%nat with (S (S (2 * k + 1))) in H1 by lia. exact H1.
Qed.

Lemma littleEndianWords_length (bytes : list byte) (k : nat) :
  length bytes = (2 * k)%nat -> length (littleEndianWords bytes) = k.
Proof.
  revert bytes. induction k as [|k IH]; intros bytes H.
  - destruct bytes; [reflexivity|discriminate].
  - destruct bytes as [|c0 [|c1 rest]]; cbn [length] in H; try lia.
    cbn [littleEndianWords length]. f_equal. apply IH. lia.
Qed.

(** The loop on a slice whose pairs all lie within its capacity: [L] is the
    length of the slice rounded up to an even number.  The fuel [len(b)] is
    never exhausted. *)
Lemma readProgramLoop_pairs (b : ByteSlice) (L : nat) :
  Nat.Even L -> (len b <= L <= len b + 1)%nat -> (L <= cap b)%nat ->
  forall (fuel i : nat) (result : list Z),
    Nat.Even i -> (i <= L)%nat -> (L - i <= 2 * fuel)%nat ->
    readProgramLoop fuel b i result =
    Some (Continue (result ++ littleEndianWords (take (L - i) (drop i (backing b))))).
Proof.
  intros [n Hn] HL Hcap. induction fuel as [|fuel IH]; intros i result [k Hk] Hi Hfuel.
  - cbn [readProgramLoop]. destruct (i <? len b)%nat eqn:E.
    + apply Nat.ltb_lt in E. lia.
    + replace (L - i)%nat with 0%nat by lia. cbn. now rewrite app_nil_r.
  - cbn [readProgramLoop]. destruct (i <? len b)%nat eqn:E.
    + apply Nat.ltb_lt in E. unfold cap in Hcap.
      assert (Hlen : (i + 2 <= length (backing b))%nat) by lia.
      unfold subslice, cap.
      replace ((i <=? i + 2)%nat && (i + 2 <=? length (backing b))%nat) with true
        by (symmetry; apply andb_true_iff; split; apply Nat.leb_le; lia).
      replace (i + 2 - i)%nat with 2%nat by lia.
      destruct (drop i (backing b)) as [|b0 [|b1 rest]] eqn:Hdrop.
      * apply (f_equal length) in Hdrop. rewrite length_drop in Hdrop. cbn in Hdrop. lia.
      * apply (f_equal length) in Hdrop. rewrite length_drop in Hdrop. cbn in Hdrop. lia.
      * cbn [take firstn]. rewrite Uint16_pair.
        rewrite Number_small
          by (pose proof (byteValue_range b0); pose proof (byteValue_range b1); lia).
        rewrite IH; [|exists (S k); lia|lia|lia].
        replace (L - i)%nat with (S (S (L - (i + 2)))) by lia.
        cbn [take firstn littleEndianWords].
        replace (drop (i + 2) (backing b)) with rest.
        { rewrite <- app_assoc. reflexivity. }
        rewrite <- drop_drop, Hdrop. reflexivity.
    + apply Nat.ltb_ge in E. replace (L - i)%nat with 0%nat by lia.
      cbn. now rewrite app_nil_r.
Qed.

(** The loop on an odd-length slice without spare capacity: the last pair
    reaches one byte past the capacity. *)
Lemma readProgramLoop_odd (b : ByteSlice) :
  cap b = len b -> Nat.Odd (len b) ->
  forall (fuel i : nat) (result : list Z),
    Nat.Even i -> (i <= len b)%nat -> (len b - i <= 2 * fuel)%nat ->
    readProgramLoop fuel b i result =
    Some (Crashed (SliceBoundsOutOfRange (len b + 1) (cap b))).
Proof.
  intros Hcap [n Hn]. induction fuel as [|fuel IH]; intros i result [k Hk] Hi Hfuel.
  - lia.
  - cbn [readProgramLoop]. destruct (i <? len b)%nat eqn:E.
    + apply Nat.ltb_lt in E. unfold subslice.
      destruct (Nat.eq_dec (i + 1)%nat (len b)) as [Hlast|Hmore].
      * replace ((i <=? i + 2)%nat && (i + 2 <=? cap b)%nat) with false
          by (symmetry; apply andb_false_iff; right; apply Nat.leb_gt; lia).
        replace (i + 2)%nat with (len b + 1)%nat by lia. reflexivity.
      * replace ((i <=? i + 2)%nat && (i + 2 <=? cap b)%nat) with true
          by (symmetry; apply andb_true_iff; split; apply Nat.leb_le; lia).
        replace (i + 2 - i)%nat with 2%nat by lia.
        destruct (drop i (backing b)) as [|b0 [|b1 rest]] eqn:Hdrop.
        -- apply (f_equal length) in Hdrop. rewrite length_drop in Hdrop.
           unfold cap in Hcap. cbn in Hdrop. lia.
        -- apply (f_equal length) in Hdrop. rewrite length_drop in Hdrop.
           unfold cap in Hcap. cbn in Hdrop. lia.
        -- cbn [take firstn]. rewrite Uint16_pair.
           apply IH; [exists (S k); lia|lia|lia].
    + apply Nat.ltb_ge in E. lia.
Qed.

Lemma readProgram_even (b : ByteSlice) :
  (len b <= cap b)%nat -> Nat.Even (len b) ->
  readProgram b = Some (Continue (littleEndianWords (take (len b) (backing b)))).
Proof.
  intros Hcap Heven. unfold readProgram.
  rewrite (readProgramLoop_pairs b (len b) Heven ltac:(lia) Hcap (len b) 0 []);
    [|exists 0%nat; lia|lia|lia].
  rewrite Nat.sub_0_r. reflexivity.
Qed.

(** An odd-length slice with spare capacity: the last word takes its high
    byte from the array element that follows the slice. *)
Lemma readProgram_odd_spare (b : ByteSlice) :
  (len b < cap b)%nat -> Nat.Odd (len b) ->
  readProgram b = Some (Continue (littleEndianWords (take (len b + 1) (backing b)))).
Proof.
  intros Hcap [n Hn]. unfold readProgram.
  rewrite (readProgramLoop_pairs b (len b + 1)%nat) with (fuel := len b) (i := 0%nat)
                                                         (result := []);
    [|exists (S n); lia|lia|lia|exists 0%nat; lia|lia|lia].
  rewrite Nat.sub_0_r. reflexivity.
Qed.

Lemma copy_length (dst src : list Z) : length (copy dst src) = length dst.
Proof. unfold copy. rewrite length_app, length_take, length_drop. lia. Qed.

Lemma copy_lookup (dst src : list Z) (a : nat) :
  copy dst src !! a = if decide (a < length dst)%nat
                      then match src !! a with Some w => Some w | None => dst !! a end
                      else None.
Proof.
  unfold copy. destruct (decide (a < length dst)%nat) as [Ha|Ha].
  - destruct (decide (a < length src)%nat) as [Hs|Hs].
    + rewrite lookup_app_l by (rewrite length_take; lia).
      rewrite lookup_take_lt by lia.
      destruct (lookup_lt_is_Some_2 src a Hs) as [w Hw]. now rewrite Hw.
    + rewrite lookup_app_r by (rewrite length_take; lia).
      rewrite length_take, lookup_drop.
      rewrite (lookup_ge_None_2 src a) by lia. f_equal. lia.
  - apply lookup_ge_None_2. rewrite length_app, length_take, length_drop. lia.
Qed.

Lemma NewVirtualMachine_memory (program : list Z) :
  length (memory (NewVirtualMachine program)) = memoryLength
  /\ forall a : nat, (a < memoryLength)%nat ->
       memory (NewVirtualMachine program) !! a = Some (default 0 (program !! a)).
Proof.
  cbn [NewVirtualMachine memory]. split.
  - rewrite copy_length. apply length_replicate.
  - intros a Ha. rewrite copy_lookup, length_replicate.
    destruct (decide (a < memoryLength)%nat); [|lia].
    destruct (program !! a); [reflexivity|].
    cbn [default]. apply lookup_replicate_2. exact Ha.
Qed.

Lemma loadProgram_even (b : ByteSlice) :
  (len b <= cap b)%nat -> Nat.Even (len b) ->
  loadProgram b =
  Some (Continue (NewVirtualMachine (littleEndianWords (take (len b) (backing b))))).
Proof.
  intros Hcap Heven. unfold loadProgram. now rewrite readProgram_even.
Qed.

(** C2, as the code has it: loading an even-length image never fails,
    whatever its size.  The decoded program is the sequence of the
    little-endian 16-bit words of the consecutive byte pairs, in order; the
    machine holds word [a] of the program at every address [a] of its memory
    array for which the program has a word, and zero at the others (words
    beyond the array are dropped by [copy]).  An odd-length image dies on the
    slice-bounds panic of its last, incomplete pair when its slice has no
    spare capacity, and loads like the image extended by the next byte of
    the underlying array when it has. *)
Theorem loadProgram_contract (b : ByteSlice) :
  (len b <= cap b)%nat ->
  (Nat.Even (len b) ->
   let program := littleEndianWords (take (len b) (backing b)) in
   readProgram b = Some (Continue program)
   /\ loadProgram b = Some (Continue (NewVirtualMachine program))
   /\ (forall k : nat, len b = (2 * k)%nat -> length program = k)
   /\ Forall (fun w => 0 <= w < 65536) program
   /\ length (memory (NewVirtualMachine program)) = memoryLength
   /\ (forall a : nat, (a < memoryLength)%nat ->
        memory (NewVirtualMachine program) !! a = Some (default 0 (program !! a))))
  /\ (Nat.Odd (len b) -> cap b = len b ->
      loadProgram b = Some (Crashed (SliceBoundsOutOfRange (len b + 1) (cap b))))
  /\ (Nat.Odd (len b) -> (len b < cap b)%nat ->
      loadProgram b =
      Some (Continue (NewVirtualMachine
                        (littleEndianWords (take (len b + 1) (backing b)))))).
Proof.
  intros Hcap. split; [|split].
  - intros Heven program. subst program.
    split; [now apply readProgram_even|].
    split; [now apply loadProgram_even|].
    split.
    { intros k Hk. apply littleEndianWords_length.
      rewrite length_take. unfold cap in Hcap. lia. }
    split; [apply littleEndianWords_word|].
    apply NewVirtualMachine_memory.
  - intros Hodd Hfull. unfold loadProgram, readProgram.
    rewrite (readProgramLoop_odd b Hfull Hodd (len b) 0 []);
      [reflexivity|exists 0%nat; lia|lia|lia].
  - intros Hodd Hspare. unfold loadProgram.
    now rewrite readProgram_odd_spare.
Qed.

Lemma loadProgram_contract_witness :
  ((len evenImage <= cap evenImage)%nat /\ Nat.Even (len evenImage)
   /\ loadProgram evenImage = Some (Continue (NewVirtualMachine [1; 32769])))
  /\ ((len oddImage <= cap oddImage)%nat /\ Nat.Odd (len oddImage)
      /\ cap oddImage = len oddImage
      /\ loadProgram oddImage = Some (Crashed (SliceBoundsOutOfRange 4 3)))
  /\ ((len spareImage < cap spareImage)%nat /\ Nat.Odd (len spareImage)
      /\ loadProgram spareImage = Some (Continue (NewVirtualMachine [1; 32769]))).
Proof.
  assert (He : (len evenImage <= cap evenImage)%nat) by (vm_compute; lia).
  assert (Ho : (len oddImage <= cap oddImage)%nat) by (vm_compute; lia).
  assert (Hs : (len spareImage < cap spareImage)%nat) by (vm_compute; lia).
  assert (Heven : Nat.Even (len evenImage)) by (exists 2%nat; reflexivity).
  assert (Hodd : Nat.Odd (len oddImage)) by (exists 1%nat; reflexivity).
  assert (Hodd' : Nat.Odd (len spareImage)) by (exists 1%nat; reflexivity).
  split; [|split].
  - split; [exact He|]. split; [exact Heven|].
    exact (proj1 (proj2 (proj1 (loadProgram_contract evenImage He) Heven))).
  - split; [exact Ho|]. split; [exact Hodd|]. split; [reflexivity|].
    exact (proj1 (proj2 (loadProgram_contract oddImage Ho)) Hodd eq_refl).
  - split; [exact Hs|]. split; [exact Hodd'|].
    exact (proj2 (proj2 (loadProgram_contract spareImage (Nat.lt_le_incl _ _ Hs)))
             Hodd' Hs).
Defined.

(** C2, as the specification states it, fails on an image that decodes to
    32769 words: the claim wants a malformed-program error, the code loads
    the image (and drops the words that do not fit). *)
Lemma oversize_program_loads :
  Z.of_nat (len oversizeImage) = 2 * 32769
  /\ Nat.Even (len oversizeImage)
  /\ (exists vm, loadProgram oversizeImage = Some (Continue vm))
  /\ ~ (exists f, loadProgram oversizeImage = Some (Crashed f)).
Proof.
  assert (Hlen : len oversizeImage = Z.to_nat 65538).
  { unfold oversizeImage, sliceOf. cbn [len]. apply length_replicate. }
  assert (Heven : Nat.Even (len oversizeImage)).
  { exists (Z.to_nat 32769). rewrite Hlen. lia. }
  assert (Hload := loadProgram_even oversizeImage (Nat.le_refl _) Heven).
  split; [rewrite Hlen; lia|]. split; [exact Heven|]. split.
  - eexists. exact Hload.
  - intros [f Hf]. rewrite Hload in Hf. discriminate.
Qed.

(** ** The memory array (section 3 of the specification) *)

Lemma memory_in_range (vm : VirtualMachine) (a : Z) :
  length (memory vm) = memoryLength -> 0 <= a <= 32766 ->
  exists w, index (memory vm) a = Some w.
Proof.
  intros Hlen Ha. apply index_in_range. rewrite Hlen. unfold memoryLength. lia.
Qed.

(** C1 fails on the code at address 32767.  The memory array has 32767
    elements, so its last address is 32766: in every machine the index
    expression [memory[32767]] is out of range, and the programs
    [rmem r0 32767], [wmem 32767 0] and [jmp 32767] each die on the
    index-out-of-range panic (the read, the write, and the fetch that
    follows the jump), although 32767 is a valid literal operand. *)
Theorem memory_address_32767_out_of_range :
  (forall vm : VirtualMachine,
      length (memory vm) = memoryLength -> index (memory vm) 32767 = None)
  /\ resolvesTo readTop 32767 32767
  /\ fst (step (readTop, emptyConsole)) = Crashed (IndexOutOfRange 32767 memoryLength)
  /\ fst (step (writeTop, emptyConsole)) = Crashed (IndexOutOfRange 32767 memoryLength)
  /\ fst (step (jumpTop, emptyConsole)) = Crashed (IndexOutOfRange 32767 memoryLength).
Proof.
  split.
  { intros vm Hlen. rewrite index_lookup by lia. apply lookup_ge_None_2.
    rewrite Hlen. unfold memoryLength. lia. }
  split.
  { apply resolvesTo_literal. unfold modulo. lia. }
  repeat split; vm_compute; reflexivity.
Qed.

(** ** Running the methods on known operands *)

Lemma bind_Continue {A B : Type} (m : M A) (k : A -> M B) (s s1 : State) (a : A) :
  m s = (Continue a, s1) -> bind m k s = k a s1.
Proof. intros H. unfold bind. now rewrite H. Qed.

Lemma bind_Exited {A B : Type} (m : M A) (k : A -> M B) (s s1 : State) :
  m s = (Exited, s1) -> bind m k s = (Exited, s1).
Proof. intros H. unfold bind. now rewrite H. Qed.

Lemma bind_Crashed {A B : Type} (m : M A) (k : A -> M B) (s s1 : State) (f : Fault) :
  m s = (Crashed f, s1) -> bind m k s = (Crashed f, s1).
Proof. intros H. unfold bind. now rewrite H. Qed.

Lemma current_at (vm : VirtualMachine) (io : Console) (w : Z) :
  index (memory vm) (memoryIndex vm) = Some w ->
  current (vm, io) = (Continue w, (vm, io)).
Proof. intros H. vm_unfold. vm_fields. now rewrite H. Qed.

Lemma next_at (q : Z) (vm : VirtualMachine) (io : Console) (w : Z) :
  q = memoryIndex vm + 1 -> index (memory vm) q = Some w ->
  next (vm, io) = (Continue w, (setMemoryIndex q vm, io)).
Proof. intros -> H. vm_unfold. vm_fields. now rewrite H. Qed.

Lemma toValue_at (vm vm' : VirtualMachine) (io : Console) (n v : Z) :
  resolvesTo vm n v -> registers vm' = registers vm ->
  toValue n (vm', io) = (Continue v, (vm', io)).
Proof. intros H Hr. exact (resolvesTo_registers vm vm' n v Hr H io). Qed.

Lemma assignRegister_run (vm : VirtualMachine) (io : Console) (i v : Z) :
  0 <= i < Z.of_nat (length (registers vm)) ->
  assignRegister i v (vm, io) =
  (Continue tt, (setRegisters (<[Z.to_nat i := v]> (registers vm)) vm, io)).
Proof.
  intros Hi. vm_unfold. vm_fields.
  destruct ((0 <=? i) && (i <? Z.of_nat (length (registers vm)))) eqn:E; [reflexivity|].
  vm_bool. lia.
Qed.

Lemma assignRegister_out_of_range (vm : VirtualMachine) (io : Console) (i v : Z) :
  ~ 0 <= i < Z.of_nat (length (registers vm)) ->
  assignRegister i v (vm, io) =
  (Crashed (IndexOutOfRange i (length (registers vm))), (vm, io)).
Proof.
  intros Hi. vm_unfold. vm_fields.
  destruct ((0 <=? i) && (i <? Z.of_nat (length (registers vm)))) eqn:E; [|reflexivity].
  vm_bool. lia.
Qed.

(** The next operand word is the one a hypothesis gives. *)
Ltac run_next :=
  match goal with
  | H : index _ ?q = Some _ |- _ =>
      erewrite bind_Continue
        by (apply (next_at q); [vm_fields; lia | vm_fields; exact H])
  end.

(** The operand resolves as a hypothesis says. *)
Ltac run_value :=
  match goal with
  | H : resolvesTo _ ?n _ |- context [toValue ?n] =>
      erewrite bind_Continue by (apply (toValue_at _ _ _ _ _ H); reflexivity)
  end.

Ltac run_assign :=
  rewrite assignRegister_run by (vm_fields; unfold toRegisterIndex, modulo; lia);
  vm_fields; unfold toRegisterIndex.

(** ** Arithmetic (sections 4.4 and 8 of the specification) *)

Lemma Number_modulo (x : Z) : Number x mod modulo = x mod 32768.
Proof. unfold Number, modulo. Z.div_mod_to_equations. lia. Qed.

(** The complement of a [k]-bit word within [k] bits. *)
Lemma lxor_ones (k a : Z) :
  0 <= k -> 0 <= a < 2 ^ k -> Z.lxor (Z.ones k) a = Z.ones k - a.
Proof.
  intros Hk Ha.
  assert (Hland : Z.land (Z.lxor (Z.ones k) a) a = 0).
  { apply Z.bits_inj'. intros n Hn.
    rewrite Z.land_spec, Z.lxor_spec, Z.bits_0.
    destruct (Z.lt_ge_cases n k) as [Hlt|Hge].
    - rewrite Z.ones_spec_low by lia. now destruct (Z.testbit a n).
    - replace a with (a mod 2 ^ k) by (apply Z.mod_small; lia).
      rewrite Z.mod_pow2_bits_high by lia. apply andb_false_r. }
  apply Z.add_nocarry_lxor in Hland.
  rewrite Z.lxor_assoc, Z.lxor_nilpotent, Z.lxor_0_r in Hland. lia.
Qed.

Lemma complement_modulo (a : Z) :
  0 <= a <= 32767 -> complement a mod modulo = 32767 - a.
Proof.
  intros Ha. unfold complement, modulo.
  change 65535 with (Z.ones 16). rewrite lxor_ones by lia.
  change (Z.ones 16) with 65535. Z.div_mod_to_equations. lia.
Qed.

(** Reading the register file of the machine an instruction leaves, when
    it stored [x] in register [r]. *)
Lemma written_register (vm : VirtualMachine) (io : Console) (k r x : Z)
    (res : Outcome unit * State) :
  length (registers vm) = registersLength -> 0 <= r <= 7 ->
  res = stores vm io k r x ->
  registers (fst (snd res)) !! Z.to_nat r = Some x
  /\ forall i : nat, i <> Z.to_nat r ->
       registers (fst (snd res)) !! i = registers vm !! i.
Proof.
  intros Hlen Hr ->. unfold stores, registersLength in *. vm_fields. split.
  - apply list_lookup_insert_eq. lia.
  - intros i Hne. apply list_lookup_insert_ne. lia.
Qed.

(** C6: when the destination word names register [r] and the two operand
    words resolve to [a] and [b], opcode 9 stores [(a + b) mod 32768] and
    opcode 10 stores [(a * b) mod 32768] in register [r]: in the machine
    that the instruction leaves, register [r] holds that value and every
    other register holds what it held; nothing else of the machine changes
    but the program counter, which stands on the last operand.  This holds
    for all [a] and [b], in particular for those of [0, 32767], whose sum or
    product may exceed 16 bits. *)
Theorem add_mul_modulo (vm : VirtualMachine) (io : Console) (r n1 n2 a b : Z) :
  length (registers vm) = registersLength ->
  0 <= r <= 7 ->
  index (memory vm) (memoryIndex vm + 1) = Some (32768 + r) ->
  index (memory vm) (memoryIndex vm + 2) = Some n1 -> resolvesTo vm n1 a ->
  index (memory vm) (memoryIndex vm + 3) = Some n2 -> resolvesTo vm n2 b ->
  execute 9 (vm, io) =
    (Continue tt,
     (setRegisters (<[Z.to_nat r := (a + b) mod 32768]> (registers vm))
        (setMemoryIndex (memoryIndex vm + 3) vm), io))
  /\ execute 10 (vm, io) =
    (Continue tt,
     (setRegisters (<[Z.to_nat r := (a * b) mod 32768]> (registers vm))
        (setMemoryIndex (memoryIndex vm + 3) vm), io))
  /\ registers (fst (snd (execute 9 (vm, io)))) !! Z.to_nat r
     = Some ((a + b) mod 32768)
  /\ registers (fst (snd (execute 10 (vm, io)))) !! Z.to_nat r
     = Some ((a * b) mod 32768)
  /\ (forall i : nat, i <> Z.to_nat r ->
        registers (fst (snd (execute 9 (vm, io)))) !! i = registers vm !! i
        /\ registers (fst (snd (execute 10 (vm, io)))) !! i = registers vm !! i)
  /\ memory (fst (snd (execute 9 (vm, io)))) = memory vm
  /\ memory (fst (snd (execute 10 (vm, io)))) = memory vm.
Proof.
  intros Hlen Hr H1 H2 Ha H3 Hb.
  assert (Hadd : execute 9 (vm, io) = stores vm io 3 r ((a + b) mod 32768)).
  { unfold registersLength in Hlen. cbn [execute]. unfold add.
    run_next. run_next. run_value. run_next. run_value. run_assign.
    rewrite Number_modulo.
    replace (32768 + r - modulo) with r by (unfold modulo; lia). reflexivity. }
  assert (Hmul : execute 10 (vm, io) = stores vm io 3 r ((a * b) mod 32768)).
  { unfold registersLength in Hlen. cbn [execute]. unfold mul.
    run_next. run_next. run_value. run_next. run_value. run_assign.
    rewrite Number_modulo.
    replace (32768 + r - modulo) with r by (unfold modulo; lia). reflexivity. }
  destruct (written_register vm io 3 r _ _ Hlen Hr Hadd) as [Hadd_r Hadd_o].
  destruct (written_register vm io 3 r _ _ Hlen Hr Hmul) as [Hmul_r Hmul_o].
  split; [exact Hadd|]. split; [exact Hmul|].
  split; [exact Hadd_r|]. split; [exact Hmul_r|].
  split; [intros i Hi; split; [now apply Hadd_o|now apply Hmul_o]|].
  rewrite Hadd, Hmul. split; reflexivity.
Qed.

Lemma add_mul_modulo_witness :
  registers (fst (snd (execute 9 (addMachine, emptyConsole)))) !! Z.to_nat 0
  = Some ((32767 + 2) mod 32768)
  /\ registers (fst (snd (execute 10 (addMachine, emptyConsole)))) !! Z.to_nat 0
     = Some ((32767 * 2) mod 32768)
  /\ execute 9 (addMachine, emptyConsole) =
    (Continue tt,
     (setRegisters (<[0%nat := 1]> (registers addMachine))
        (setMemoryIndex 3 addMachine), emptyConsole))
  /\ execute 10 (addMachine, emptyConsole) =
    (Continue tt,
     (setRegisters (<[0%nat := 32766]> (registers addMachine))
        (setMemoryIndex 3 addMachine), emptyConsole)).
Proof.
  assert (H := add_mul_modulo addMachine emptyConsole 0 32767 2 32767 2).
  destruct H as (Hadd & Hmul & Hadd_r & Hmul_r & _).
  - reflexivity.
  - lia.
  - vm_compute. reflexivity.
  - vm_compute. reflexivity.
  - intros io. reflexivity.
  - vm_compute. reflexivity.
  - intros io. reflexivity.
  - split; [exact Hadd_r|]. split; [exact Hmul_r|].
    split; [exact Hadd|exact Hmul].
Defined.

(** C7: when the destination word names register [r] and the operand word
    resolves to [a] in [0, 32767], opcode 14 stores [32767 - a] in register
    [r]: in the machine that the instruction leaves, register [r] holds
    [32767 - a] and every other register holds what it held.  That value is
    the complement of [a] on 15 bits (the exclusive or with the fifteen
    ones) and lies in [0, 32767], although the code complements on 16 bits
    and then reduces modulo 32768. *)
Theorem not_complement (vm : VirtualMachine) (io : Console) (r n1 a : Z) :
  length (registers vm) = registersLength ->
  0 <= r <= 7 ->
  index (memory vm) (memoryIndex vm + 1) = Some (32768 + r) ->
  index (memory vm) (memoryIndex vm + 2) = Some n1 -> resolvesTo vm n1 a ->
  0 <= a <= 32767 ->
  execute 14 (vm, io) =
    (Continue tt,
     (setRegisters (<[Z.to_nat r := 32767 - a]> (registers vm))
        (setMemoryIndex (memoryIndex vm + 2) vm), io))
  /\ registers (fst (snd (execute 14 (vm, io)))) !! Z.to_nat r = Some (32767 - a)
  /\ (forall i : nat, i <> Z.to_nat r ->
        registers (fst (snd (execute 14 (vm, io)))) !! i = registers vm !! i)
  /\ memory (fst (snd (execute 14 (vm, io)))) = memory vm
  /\ 32767 - a = Z.lxor (Z.ones 15) a
  /\ 0 <= 32767 - a <= 32767.
Proof.
  intros Hlen Hr H1 H2 Ha Hrange.
  assert (Hnot : execute 14 (vm, io) = stores vm io 2 r (32767 - a)).
  { unfold registersLength in Hlen. cbn [execute]. unfold not_.
    run_next. run_next. run_value. run_assign.
    rewrite complement_modulo by exact Hrange.
    replace (32768 + r - modulo) with r by (unfold modulo; lia). reflexivity. }
  destruct (written_register vm io 2 r _ _ Hlen Hr Hnot) as [Hnot_r Hnot_o].
  split; [exact Hnot|]. split; [exact Hnot_r|]. split; [exact Hnot_o|].
  split; [rewrite Hnot; reflexivity|]. split.
  - rewrite lxor_ones by lia. reflexivity.
  - lia.
Qed.

Lemma not_complement_witness :
  registers (fst (snd (execute 14 (notMachine, emptyConsole)))) !! Z.to_nat 1
  = Some (32767 - 5)
  /\ execute 14 (notMachine, emptyConsole) =
    (Continue tt,
     (setRegisters (<[1%nat := 32762]> (registers notMachine))
        (setMemoryIndex 2 notMachine), emptyConsole)).
Proof.
  assert (H := not_complement notMachine emptyConsole 1 5 5).
  destruct H as (Hnot & Hnot_r & _).
  - reflexivity.
  - lia.
  - vm_compute. reflexivity.
  - vm_compute. reflexivity.
  - intros io. reflexivity.
  - lia.
  - split; [exact Hnot_r|exact Hnot].
Defined.

(** ** The loop body on a known instruction *)

Lemma step_continue (vm vm1 : VirtualMachine) (io io1 : Console) (n0 opcode q w : Z) :
  index (memory vm) (memoryIndex vm) = Some n0 -> resolvesTo vm n0 opcode ->
  execute opcode (vm, io) = (Continue tt, (vm1, io1)) ->
  q = memoryIndex vm1 + 1 -> index (memory vm1) q = Some w ->
  step (vm, io) = (Continue tt, (setMemoryIndex q vm1, io1)).
Proof.
  intros H0 Hop Hexec Hq Hw. unfold step.
  erewrite bind_Continue by (apply current_at; exact H0).
  erewrite bind_Continue by (apply Hop).
  erewrite bind_Continue by (exact Hexec).
  erewrite bind_Continue by (apply (next_at q); [exact Hq|exact Hw]).
  reflexivity.
Qed.

Lemma step_exit (vm : VirtualMachine) (io : Console) (n0 opcode : Z) (s1 : State) :
  index (memory vm) (memoryIndex vm) = Some n0 -> resolvesTo vm n0 opcode ->
  execute opcode (vm, io) = (Exited, s1) ->
  step (vm, io) = (Exited, s1).
Proof.
  intros H0 Hop Hexec. unfold step.
  erewrite bind_Continue by (apply current_at; exact H0).
  erewrite bind_Continue by (apply Hop).
  erewrite bind_Exited by (exact Hexec).
  reflexivity.
Qed.


(** ** Control flow: call and return (sections 4.4 and 8) *)

Lemma jump_run (vm : VirtualMachine) (io : Console) (n target : Z) :
  index (memory vm) (memoryIndex vm + 1) = Some n -> resolvesTo vm n target ->
  jump (vm, io) = (Continue tt, (setMemoryIndex (target - 1) vm, io)).
Proof.
  intros Hn Ht. unfold jump. run_next. run_value. reflexivity.
Qed.

Lemma ret_empty (vm : VirtualMachine) (io : Console) :
  stack vm = [] -> ret (vm, io) = (Exited, (vm, io)).
Proof. intros H. vm_unfold. vm_fields. rewrite H. reflexivity. Qed.

Lemma ret_nonempty (vm : VirtualMachine) (io : Console) (rest : list Z) (top : Z) :
  stack vm = rest ++ [top] ->
  ret (vm, io) = (Continue tt, (setStack rest (setMemoryIndex (top - 1) vm), io)).
Proof.
  intros H. vm_unfold. vm_fields. rewrite H, last_length.
  cbn [Nat.eqb]. replace (S (length rest) - 1)%nat with (length rest) by lia.
  rewrite list_lookup_middle by reflexivity. rewrite take_app_length.
  reflexivity.
Qed.

Lemma step_ret_nonempty (vm : VirtualMachine) (io : Console) (n0 top w : Z)
    (rest : list Z) :
  index (memory vm) (memoryIndex vm) = Some n0 -> resolvesTo vm n0 18 ->
  stack vm = rest ++ [top] -> index (memory vm) top = Some w ->
  step (vm, io) = (Continue tt, (setStack rest (setMemoryIndex top vm), io)).
Proof.
  intros H0 Hop Hstack Hw.
  rewrite (step_continue vm (setStack rest (setMemoryIndex (top - 1) vm)) io io
             n0 18 top w H0 Hop); [reflexivity| | |].
  - cbn [execute]. now apply ret_nonempty.
  - vm_fields. lia.
  - vm_fields. exact Hw.
Qed.

(** C9: a [ret] (opcode 18) on the empty stack ends the process exactly as
    a [halt] (opcode 0) does, by [os.Exit(0)] with the machine untouched, and
    never by a crash.  On a non-empty stack the method pops the top word,
    leaves the words below it in place and sets the counter one short of the
    popped word, so that the loop's increment resumes at that word when it is
    an address of the memory array. *)
Theorem ret_semantics (vm : VirtualMachine) (io : Console) (n0 opcode : Z) :
  index (memory vm) (memoryIndex vm) = Some n0 -> resolvesTo vm n0 opcode ->
  (opcode = 0 \/ (opcode = 18 /\ stack vm = []) -> step (vm, io) = (Exited, (vm, io)))
  /\ (opcode = 18 ->
      forall (rest : list Z) (top : Z), stack vm = rest ++ [top] ->
        ret (vm, io) = (Continue tt, (setStack rest (setMemoryIndex (top - 1) vm), io))
        /\ forall w : Z, index (memory vm) top = Some w ->
             step (vm, io) = (Continue tt, (setStack rest (setMemoryIndex top vm), io))).
Proof.
  intros H0 Hop. split.
  - intros [->|[-> Hempty]]; apply (step_exit vm io n0 _ _ H0 Hop).
    + reflexivity.
    + cbn [execute]. now apply ret_empty.
  - intros -> rest top Hstack. split; [now apply ret_nonempty|].
    intros w Hw. now apply (step_ret_nonempty vm io n0 top w rest).
Qed.

Lemma ret_semantics_witness :
  step (haltMachine, emptyConsole) = (Exited, (haltMachine, emptyConsole))
  /\ step (retMachine, emptyConsole) = (Exited, (retMachine, emptyConsole))
  /\ step (calledMachine, emptyConsole) =
       (Continue tt, (setStack [] (setMemoryIndex 2 calledMachine), emptyConsole)).
Proof.
  split; [|split].
  - refine (proj1 (ret_semantics haltMachine emptyConsole 0 0 _ _) _).
    + vm_compute. reflexivity.
    + intros io. reflexivity.
    + left. reflexivity.
  - refine (proj1 (ret_semantics retMachine emptyConsole 18 18 _ _) _).
    + vm_compute. reflexivity.
    + intros io. reflexivity.
    + right. split; reflexivity.
  - refine (proj2 (proj2 (ret_semantics calledMachine emptyConsole 18 18 _ _)
                     eq_refl [] 2 _) 0 _).
    + vm_compute. reflexivity.
    + intros io. reflexivity.
    + reflexivity.
    + vm_compute. reflexivity.
Defined.

(** C8: a [call] (opcode 17) at address [p] whose operand resolves to an
    address [addr] of the memory array pushes [p + 2] and leaves the counter
    on [addr].  Whenever a later [ret] (opcode 18) finds that word on top of
    the stack, it pops it and leaves the counter on [p + 2], the word that
    follows the call and its operand. *)
Theorem call_ret_resume (vm : VirtualMachine) (io : Console) (n0 n1 addr w : Z) :
  length (memory vm) = memoryLength ->
  index (memory vm) (memoryIndex vm) = Some n0 -> resolvesTo vm n0 17 ->
  index (memory vm) (memoryIndex vm + 1) = Some n1 -> resolvesTo vm n1 addr ->
  index (memory vm) addr = Some w ->
  step (vm, io) =
    (Continue tt,
     (setMemoryIndex addr (setStack (stack vm ++ [memoryIndex vm + 2]) vm), io))
  /\ forall (vm2 : VirtualMachine) (io2 : Console) (rest : list Z) (m0 w2 : Z),
      stack vm2 = rest ++ [memoryIndex vm + 2] ->
      index (memory vm2) (memoryIndex vm2) = Some m0 -> resolvesTo vm2 m0 18 ->
      index (memory vm2) (memoryIndex vm + 2) = Some w2 ->
      step (vm2, io2) =
        (Continue tt, (setStack rest (setMemoryIndex (memoryIndex vm + 2) vm2), io2)).
Proof.
  intros Hlen H0 Hop H1 Haddr Hw. split.
  - pose proof (index_Some_range _ _ _ H0) as Hp.
    rewrite Hlen in Hp. unfold memoryLength in Hp.
    rewrite (step_continue vm
               (setMemoryIndex (addr - 1) (setStack (stack vm ++ [memoryIndex vm + 2]) vm))
               io io n0 17 addr w H0 Hop); [reflexivity| | |].
    + cbn [execute]. unfold call.
      erewrite bind_Continue by (unfold updateVM; reflexivity). vm_fields.
      rewrite Number_small by lia.
      rewrite (jump_run _ io n1 addr); [reflexivity|exact H1|].
      apply (resolvesTo_registers vm); [reflexivity|exact Haddr].
    + vm_fields. lia.
    + vm_fields. exact Hw.
  - intros vm2 io2 rest m0 w2 Hstack Hm0 Hop2 Hw2.
    now apply (step_ret_nonempty vm2 io2 m0 (memoryIndex vm + 2) w2 rest).
Qed.

Lemma call_ret_resume_witness :
  step (callMachine, emptyConsole) =
    (Continue tt, (setMemoryIndex 4 (setStack [2] callMachine), emptyConsole))
  /\ step (calledMachine, emptyConsole) =
    (Continue tt, (setStack [] (setMemoryIndex 2 calledMachine), emptyConsole)).
Proof.
  assert (H := call_ret_resume callMachine emptyConsole 17 4 4 18).
  destruct H as [Hcall Hret].
  - exact (proj1 (NewVirtualMachine_memory _)).
  - vm_compute. reflexivity.
  - intros io. reflexivity.
  - vm_compute. reflexivity.
  - intros io. reflexivity.
  - vm_compute. reflexivity.
  - split; [exact Hcall|].
    apply (Hret calledMachine emptyConsole [] 18 0).
    + reflexivity.
    + vm_compute. reflexivity.
    + intros io. reflexivity.
    + vm_compute. reflexivity.
Defined.

(** ** The program counter (section 4.3 of the specification) *)

Lemma execute_unknown (opcode : Z) :
  ~ 0 <= opcode <= 21 ->
  execute opcode =
  (let* value := current in
   let* vm := getVM in
   crash (UnknownOpcode opcode value (memoryIndex vm))).
Proof.
  intros H. destruct opcode as [|p|p]; [lia| |reflexivity].
  do 5 (destruct p as [p|p|]; try lia; try reflexivity).
Qed.

Lemma opcode_cases (opcode : Z) :
  0 <= opcode <= 21 ->
  opcode = 0 \/ opcode = 1 \/ opcode = 2 \/ opcode = 3 \/ opcode = 4 \/ opcode = 5
  \/ opcode = 6 \/ opcode = 7 \/ opcode = 8 \/ opcode = 9 \/ opcode = 10
  \/ opcode = 11 \/ opcode = 12 \/ opcode = 13 \/ opcode = 14 \/ opcode = 15
  \/ opcode = 16 \/ opcode = 17 \/ opcode = 18 \/ opcode = 19 \/ opcode = 20
  \/ opcode = 21.
Proof. lia. Qed.

(** One goal per opcode of the instruction set. *)
Ltac opcode_split H :=
  apply opcode_cases in H;
  repeat (destruct H as [H|H]); subst.

(** All the ways in which a run that hypothesis [H] describes can go. *)
Ltac vm_invert H :=
  revert H; vm_unfold; vm_fields; vm_cases;
  intros H; inversion H; subst; clear H; vm_fields.

Lemma execute_advance (opcode : Z) (vm vm1 : VirtualMachine) (io io1 : Console) :
  opcode <> 6 -> opcode <> 7 -> opcode <> 8 -> opcode <> 17 -> opcode <> 18 ->
  execute opcode (vm, io) = (Continue tt, (vm1, io1)) ->
  memoryIndex vm1 = memoryIndex vm + operandCount opcode.
Proof.
  intros N6 N7 N8 N17 N18 H.
  destruct (Z_le_dec 0 opcode) as [Hlo|Hlo];
    [destruct (Z_le_dec opcode 21) as [Hhi|Hhi]|].
  - assert (Hr : 0 <= opcode <= 21) by lia. clear Hlo Hhi.
    opcode_split Hr; try congruence; cbn [execute operandCount] in *.
    all: vm_invert H; try lia.
  - rewrite execute_unknown in H by lia. vm_invert H.
  - rewrite execute_unknown in H by lia. vm_invert H.
Qed.

(** The loop body around [execute]: a completed step is a completed
    instruction followed by the increment of [next]. *)
Lemma step_inversion (vm vm' : VirtualMachine) (io io' : Console) (n0 opcode : Z) :
  index (memory vm) (memoryIndex vm) = Some n0 -> resolvesTo vm n0 opcode ->
  step (vm, io) = (Continue tt, (vm', io')) ->
  exists vm1, execute opcode (vm, io) = (Continue tt, (vm1, io'))
              /\ vm' = setMemoryIndex (memoryIndex vm1 + 1) vm1.
Proof.
  intros H0 Hop H. unfold step in H.
  erewrite bind_Continue in H by (apply current_at; exact H0).
  erewrite bind_Continue in H by (apply Hop).
  unfold bind at 1 in H.
  destruct (execute opcode (vm, io)) as [[[]| |f] [vm1 io1]]; try discriminate.
  exists vm1. vm_invert H. split; reflexivity.
Qed.

Lemma branch_not_taken (vm : VirtualMachine) (io : Console) (opcode n1 c n2 : Z) :
  index (memory vm) (memoryIndex vm + 1) = Some n1 -> resolvesTo vm n1 c ->
  index (memory vm) (memoryIndex vm + 2) = Some n2 ->
  (opcode = 7 /\ c = 0) \/ (opcode = 8 /\ c <> 0) ->
  execute opcode (vm, io) = (Continue tt, (setMemoryIndex (memoryIndex vm + 2) vm, io)).
Proof.
  intros H1 Hc H2 [[-> ->]|[-> Hne]]; cbn [execute]; [unfold jt|unfold jf].
  - run_next. run_value. cbn [Z.eqb negb]. run_next. reflexivity.
  - run_next. run_value. apply Z.eqb_neq in Hne. rewrite Hne.
    run_next. reflexivity.
Qed.

(** C5: a completed loop iteration on an opcode other than [jmp] (6),
    [jt] (7), [jf] (8), [call] (17) and [ret] (18) leaves the counter on
    the instruction's address plus one plus its operand count.  A [jt] whose
    condition resolves to zero and a [jf] whose condition resolves to a
    non-zero value complete as soon as their words are in memory, change
    nothing but the counter, and leave it three words on: the address
    operand is consumed although the branch is not taken. *)
Theorem counter_advance (vm : VirtualMachine) (io : Console) (n0 opcode : Z) :
  index (memory vm) (memoryIndex vm) = Some n0 -> resolvesTo vm n0 opcode ->
  (forall (vm' : VirtualMachine) (io' : Console),
      step (vm, io) = (Continue tt, (vm', io')) ->
      opcode <> 6 -> opcode <> 7 -> opcode <> 8 -> opcode <> 17 -> opcode <> 18 ->
      memoryIndex vm' = memoryIndex vm + 1 + operandCount opcode)
  /\ (forall n1 c n2 w : Z,
      index (memory vm) (memoryIndex vm + 1) = Some n1 -> resolvesTo vm n1 c ->
      index (memory vm) (memoryIndex vm + 2) = Some n2 ->
      index (memory vm) (memoryIndex vm + 3) = Some w ->
      (opcode = 7 /\ c = 0) \/ (opcode = 8 /\ c <> 0) ->
      step (vm, io) =
        (Continue tt,
         (setMemoryIndex (memoryIndex vm + 1 + operandCount opcode) vm, io))).
Proof.
  intros H0 Hop. split.
  - intros vm' io' Hstep N6 N7 N8 N17 N18.
    destruct (step_inversion vm vm' io io' n0 opcode H0 Hop Hstep) as (vm1 & Hexec & ->).
    pose proof (execute_advance opcode vm vm1 io io' N6 N7 N8 N17 N18 Hexec).
    vm_fields. lia.
  - intros n1 c n2 w H1 Hc H2 H3 Hbranch.
    rewrite (step_continue vm (setMemoryIndex (memoryIndex vm + 2) vm) io io
               n0 opcode (memoryIndex vm + 3) w H0 Hop).
    + replace (operandCount opcode) with 2
        by (destruct Hbranch as [[-> _]|[-> _]]; reflexivity).
      replace (memoryIndex vm + 1 + 2) with (memoryIndex vm + 3) by lia.
      reflexivity.
    + now apply (branch_not_taken vm io opcode n1 c n2).
    + vm_fields. lia.
    + vm_fields. exact H3.
Qed.

Lemma counter_advance_witness :
  memoryIndex (setMemoryIndex 1 noopMachine) = memoryIndex noopMachine + 1 + operandCount 21
  /\ step (jtMachine, emptyConsole) =
       (Continue tt,
        (setMemoryIndex (memoryIndex jtMachine + 1 + operandCount 7) jtMachine,
         emptyConsole)).
Proof.
  split.
  - refine (proj1 (counter_advance noopMachine emptyConsole 21 21 _ _)
              (setMemoryIndex 1 noopMachine) emptyConsole _ _ _ _ _ _).
    + vm_compute. reflexivity.
    + intros io. reflexivity.
    + apply (step_continue noopMachine noopMachine emptyConsole emptyConsole 21 21 1 0).
      * vm_compute. reflexivity.
      * intros io. reflexivity.
      * reflexivity.
      * reflexivity.
      * vm_compute. reflexivity.
    + lia.
    + lia.
    + lia.
    + lia.
    + lia.
  - refine (proj2 (counter_advance jtMachine emptyConsole 7 7 _ _) 0 0 5 21 _ _ _ _ _).
    + vm_compute. reflexivity.
    + intros io. reflexivity.
    + vm_compute. reflexivity.
    + intros io. reflexivity.
    + vm_compute. reflexivity.
    + vm_compute. reflexivity.
    + left. split; reflexivity.
Defined.

(** ** Frame properties of the instructions *)

Ltac in_split H :=
  cbn [In destinationOpcodes registerOpcodes] in H;
  repeat (destruct H as [H|H]); [subst..|contradiction].

(** What an instruction with a destination operand does to the registers
    and to memory, however it ends. *)
Lemma destination_write (opcode : Z) (vm vm1 : VirtualMachine) (io io1 : Console)
    (o : Outcome unit) :
  In opcode destinationOpcodes ->
  execute opcode (vm, io) = (o, (vm1, io1)) ->
  memory vm1 = memory vm
  /\ o <> Exited
  /\ (o = Continue tt ->
      exists w v, index (memory vm) (memoryIndex vm + 1) = Some w
                  /\ 0 <= toRegisterIndex w < Z.of_nat (length (registers vm))
                  /\ registers vm1 = <[Z.to_nat (toRegisterIndex w) := v]> (registers vm))
  /\ (o <> Continue tt -> registers vm1 = registers vm).
Proof.
  intros Hin H. in_split Hin; cbn [execute] in H.
  all: vm_invert H.
  all: split; [reflexivity|]; split; [discriminate|]; split;
    [first [discriminate
           | intros _; eexists _, _; split; [first [eassumption|reflexivity]|];
             split; [vm_bool; lia|reflexivity]]
    |first [reflexivity | intros Hne; congruence]].
Qed.

Lemma register_writer_frame (opcode : Z) (vm vm1 : VirtualMachine) (io io1 : Console)
    (o : Outcome unit) :
  In opcode registerOpcodes ->
  execute opcode (vm, io) = (o, (vm1, io1)) ->
  stack vm1 = stack vm /\ input vm1 = input vm /\ io1 = io.
Proof.
  intros Hin H. in_split Hin; cbn [execute] in H.
  all: vm_invert H; repeat split; reflexivity.
Qed.

Lemma execute_memory_frame (opcode : Z) (vm vm1 : VirtualMachine) (io io1 : Console)
    (o : Outcome unit) :
  opcode <> 16 ->
  execute opcode (vm, io) = (o, (vm1, io1)) -> memory vm1 = memory vm.
Proof.
  intros N16 H.
  destruct (Z_le_dec 0 opcode) as [Hlo|Hlo];
    [destruct (Z_le_dec opcode 21) as [Hhi|Hhi]|].
  - assert (Hr : 0 <= opcode <= 21) by lia. clear Hlo Hhi.
    opcode_split Hr; try congruence; cbn [execute] in *.
    all: vm_invert H; reflexivity.
  - rewrite execute_unknown in H by lia. vm_invert H; reflexivity.
  - rewrite execute_unknown in H by lia. vm_invert H; reflexivity.
Qed.

Lemma execute_stack_frame (opcode : Z) (vm vm1 : VirtualMachine) (io io1 : Console)
    (o : Outcome unit) :
  opcode <> 2 -> opcode <> 3 -> opcode <> 17 -> opcode <> 18 ->
  execute opcode (vm, io) = (o, (vm1, io1)) -> stack vm1 = stack vm.
Proof.
  intros N2 N3 N17 N18 H.
  destruct (Z_le_dec 0 opcode) as [Hlo|Hlo];
    [destruct (Z_le_dec opcode 21) as [Hhi|Hhi]|].
  - assert (Hr : 0 <= opcode <= 21) by lia. clear Hlo Hhi.
    opcode_split Hr; try congruence; cbn [execute] in *.
    all: vm_invert H; reflexivity.
  - rewrite execute_unknown in H by lia. vm_invert H; reflexivity.
  - rewrite execute_unknown in H by lia. vm_invert H; reflexivity.
Qed.

(** A loop iteration is its instruction, followed when the instruction
    returns by the increment and fetch of [next], which only moves the
    counter. *)
Lemma step_decompose (vm vm1 : VirtualMachine) (io io1 : Console) (n0 opcode : Z)
    (o : Outcome unit) :
  index (memory vm) (memoryIndex vm) = Some n0 -> resolvesTo vm n0 opcode ->
  step (vm, io) = (o, (vm1, io1)) ->
  exists o2 vm2,
    execute opcode (vm, io) = (o2, (vm2, io1))
    /\ memory vm1 = memory vm2 /\ registers vm1 = registers vm2
    /\ stack vm1 = stack vm2 /\ input vm1 = input vm2
    /\ (o2 <> Continue tt -> o = o2)
    /\ (o = Continue tt -> o2 = Continue tt).
Proof.
  intros H0 Hop H. unfold step in H.
  erewrite bind_Continue in H by (apply current_at; exact H0).
  erewrite bind_Continue in H by (apply Hop).
  unfold bind at 1 in H.
  destruct (execute opcode (vm, io)) as [[[]| |f] [vm2 io2]].
  - exists (Continue tt), vm2. vm_invert H; repeat split; try reflexivity; congruence.
  - inversion H; subst. exists Exited, vm1. repeat split; congruence.
  - inversion H; subst. exists (Crashed f), vm1. repeat split; congruence.
Qed.

Lemma registerOpcodes_destination (opcode : Z) :
  In opcode registerOpcodes -> In opcode destinationOpcodes.
Proof. intros H. in_split H; cbn; tauto. Qed.

(** C10: a loop iteration on one of the register-writing opcodes ([set],
    [eq], [gt], [add], [mult], [mod], [and], [or], [not], [rmem]) leaves
    memory, the stack, the input buffer and the console as they were,
    however it ends; when it completes, its first operand word [w] names a
    register and the register file is the former one with register
    [w - 32768] overwritten, so every other register keeps its content.  A
    loop iteration on any opcode but [wmem] (16) leaves memory unchanged,
    and one on any opcode but [push], [pop], [call] and [ret] (2, 3, 17, 18)
    leaves the stack unchanged. *)
Theorem frame_effects (vm vm1 : VirtualMachine) (io io1 : Console) (n0 opcode : Z)
    (o : Outcome unit) :
  index (memory vm) (memoryIndex vm) = Some n0 -> resolvesTo vm n0 opcode ->
  step (vm, io) = (o, (vm1, io1)) ->
  (In opcode registerOpcodes ->
   memory vm1 = memory vm /\ stack vm1 = stack vm /\ input vm1 = input vm
   /\ io1 = io
   /\ (o = Continue tt ->
       exists w v,
         index (memory vm) (memoryIndex vm + 1) = Some w
         /\ 0 <= w - 32768 < Z.of_nat (length (registers vm))
         /\ registers vm1 = <[Z.to_nat (w - 32768) := v]> (registers vm)
         /\ forall i : nat, i <> Z.to_nat (w - 32768) ->
                            registers vm1 !! i = registers vm !! i))
  /\ (opcode <> 16 -> memory vm1 = memory vm)
  /\ (opcode <> 2 -> opcode <> 3 -> opcode <> 17 -> opcode <> 18 ->
      stack vm1 = stack vm).
Proof.
  intros H0 Hop Hstep.
  destruct (step_decompose vm vm1 io io1 n0 opcode o H0 Hop Hstep)
    as (o2 & vm2 & Hexec & Hm & Hr & Hs & Hi & Hfail & Hdone).
  split; [|split].
  - intros Hin.
    destruct (register_writer_frame opcode vm vm2 io io1 o2 Hin Hexec)
      as (Hs2 & Hi2 & Hio).
    destruct (destination_write opcode vm vm2 io io1 o2
                (registerOpcodes_destination opcode Hin) Hexec)
      as (Hm2 & _ & Hwrite & _).
    repeat split; try congruence.
    intros Ho. destruct (Hwrite (Hdone Ho)) as (w & v & Hw & Hrange & Hregs).
    unfold toRegisterIndex, modulo in *.
    exists w, v. repeat split; try lia; try congruence.
    intros i Hne. rewrite Hr, Hregs. now apply list_lookup_insert_ne.
  - intros N16. rewrite Hm. exact (execute_memory_frame opcode vm vm2 io io1 o2 N16 Hexec).
  - intros N2 N3 N17 N18. rewrite Hs.
    exact (execute_stack_frame opcode vm vm2 io io1 o2 N2 N3 N17 N18 Hexec).
Qed.

Lemma run_eta {A : Type} (r : Outcome A * State) :
  r = (fst r, (fst (snd r), snd (snd r))).
Proof. destruct r as [o [vm io]]. reflexivity. Qed.

Lemma frame_effects_witness :
  memory (fst (snd (step (addMachine, emptyConsole)))) = memory addMachine
  /\ stack (fst (snd (step (addMachine, emptyConsole)))) = stack addMachine
  /\ exists w v,
       index (memory addMachine) (memoryIndex addMachine + 1) = Some w
       /\ registers (fst (snd (step (addMachine, emptyConsole)))) =
          <[Z.to_nat (w - 32768) := v]> (registers addMachine).
Proof.
  destruct (frame_effects addMachine _ emptyConsole _ 9 9 _
              ltac:(vm_compute; reflexivity) ltac:(intros io; reflexivity)
              (run_eta (step (addMachine, emptyConsole))))
    as (Hwriter & Hmemory & Hstack).
  split; [apply Hmemory; lia|].
  split; [apply Hstack; lia|].
  destruct Hwriter as (_ & _ & _ & _ & Hdone).
  - cbn. tauto.
  - destruct Hdone as (w & v & Hw & _ & Hregs & _).
    + vm_compute. reflexivity.
    + exists w, v. split; [exact Hw|exact Hregs].
Defined.

(** ** Destination operands (sections 4.2 and 7 of the specification) *)

Lemma upToDelim_head (delim : byte) (chunk head : list byte) :
  upToDelim delim chunk = Some head -> head <> [].
Proof.
  destruct chunk as [|c rest]; cbn [upToDelim]; [discriminate|].
  destruct (Byte.eqb c delim); [intros H; inversion H; discriminate|].
  destruct (upToDelim delim rest); intros H; inversion H; discriminate.
Qed.

(** The text of a string that is not empty has a first character. *)
Lemma runes_line (line : list byte) : line <> [] -> runes line <> [].
Proof.
  destruct line as [|s0 line]; [congruence|]. intros _.
  unfold runes. cbn [length runesLoop].
  destruct (if byteValue s0 <? 128 then (byteValue s0, 1%nat)
            else decoderune (s0 :: line)).
  discriminate.
Qed.

(** A line that was read is never empty: it holds its delimiter. *)
Lemma ReadString_line (delim : byte) (reads rest : list (list byte))
    (acc line : list byte) :
  ReadString delim reads acc = (Some line, rest) -> line <> [].
Proof.
  revert acc. induction reads as [|chunk reads IH]; intros acc; cbn [ReadString].
  - discriminate.
  - destruct chunk as [|c chunk]; [discriminate|].
    destruct (upToDelim delim (c :: chunk)) as [head|] eqn:E.
    + intros H. inversion H; subst. apply upToDelim_head in E.
      destruct acc; [exact E|discriminate].
    + apply IH.
Qed.

Lemma index_0_None {A : Type} (l : list A) : index l 0 = None -> l = [].
Proof. destruct l; [reflexivity|discriminate]. Qed.

(** Two lookups of the same cell agree. *)
Ltac same_lookup :=
  repeat match goal with
    | H : Some _ = Some _ |- _ => inversion H; subst; clear H
    | H : Some _ = None |- _ => discriminate H
    | H : None = Some _ |- _ => discriminate H
    | H1 : ?x = Some _, H2 : ?x = Some _ |- _ =>
        rewrite H1 in H2; inversion H2; subst; clear H2
    | H1 : ?x = Some _, H2 : ?x = None |- _ =>
        rewrite H1 in H2; discriminate
    end.

Ltac list_facts :=
  repeat match goal with
    | H : length _ = 0%nat |- _ => apply length_zero_iff_nil in H
    | H : index _ 0 = None |- _ => apply index_0_None in H
    | H : length ?l <> 0%nat, E : ?l = [] |- _ =>
        rewrite E in H; cbn in H; congruence
    end.

Ltac run_out_of_range :=
  rewrite assignRegister_out_of_range by (vm_fields; assumption); reflexivity.

Ltac use_operands H :=
  unfold operandResolves in H;
  repeat match type of H with
    | exists _, _ => let x := fresh "x" in destruct H as [x H]
    | _ /\ _ => let H' := fresh "H" in destruct H as [H' H];
                try (let n := fresh "n" in let Hn := fresh "Hn" in
                     destruct H' as (n & Hn & H'))
    end;
  try (let n := fresh "n" in let Hn := fresh "Hn" in destruct H as (n & Hn & H)).

(** When nothing else goes wrong, a destination word outside the register
    file is found out by the bounds check of the register assignment. *)
Lemma destination_out_of_range (opcode : Z) (vm : VirtualMachine) (io : Console) (w : Z) :
  In opcode destinationOpcodes ->
  index (memory vm) (memoryIndex vm + 1) = Some w ->
  ~ 0 <= toRegisterIndex w < Z.of_nat (length (registers vm)) ->
  faultless opcode vm io ->
  fst (execute opcode (vm, io)) =
  Crashed (IndexOutOfRange (toRegisterIndex w) (length (registers vm))).
Proof.
  intros Hin Hw Hbad Hready. in_split Hin; cbn [execute faultless] in *.
  - use_operands Hready. unfold set_.
    run_next. run_next. run_value. run_out_of_range.
  - destruct (pop (vm, io)) as [o [vm1 io1]] eqn:H. cbn [fst].
    vm_invert H; vm_bool; same_lookup; try congruence; try lia.
    + match goal with
      | H : length (stack _) = 0%nat |- _ =>
          apply length_zero_iff_nil in H; congruence
      end.
    + match goal with
      | H : stack _ !! _ = None |- _ => apply lookup_ge_None in H; lia
      end.
  - use_operands Hready. unfold eq_.
    run_next. run_next. run_value. run_next. run_value.
    match goal with |- context [if ?c then _ else _] => destruct c end;
      run_out_of_range.
  - use_operands Hready. unfold gt.
    run_next. run_next. run_value. run_next. run_value.
    match goal with |- context [if ?c then _ else _] => destruct c end;
      run_out_of_range.
  - use_operands Hready. unfold add.
    run_next. run_next. run_value. run_next. run_value. run_out_of_range.
  - use_operands Hready. unfold mul.
    run_next. run_next. run_value. run_next. run_value. run_out_of_range.
  - use_operands Hready. unfold mod_.
    run_next. run_next. run_value. run_next. run_value.
    match goal with H : _ <> 0 |- _ => apply Z.eqb_neq in H; rewrite H end.
    run_out_of_range.
  - use_operands Hready. unfold and_.
    run_next. run_next. run_value. run_next. run_value. run_out_of_range.
  - use_operands Hready. unfold or_.
    run_next. run_next. run_value. run_next. run_value. run_out_of_range.
  - use_operands Hready. unfold not_.
    run_next. run_next. run_value. run_out_of_range.
  - use_operands Hready. unfold read.
    run_next. run_next. run_value.
    unfold bind at 1, getVM. vm_fields.
    match goal with
    | H : index (memory vm) _ = Some _
      |- context [checked (index (memory vm) ?a)] => rewrite H
    end.
    unfold bind at 1, checked, pure. run_out_of_range.
  - destruct (ask (vm, io)) as [o [vm1 io1]] eqn:H. cbn [fst].
    destruct Hready as [Hinput|(Hinput & line & rest & Hstdin)].
    + vm_invert H; vm_bool; same_lookup; list_facts; try congruence; try lia.
    + pose proof (runes_line _ (ReadString_line _ _ _ _ _ Hstdin)) as Hline.
      vm_invert H; vm_bool; same_lookup; list_facts; try congruence; try lia.
Qed.

(** C4, as the code has it.  Let [w] be the word in the destination position
    of an instruction of [set], [pop], [eq], [gt], [add], [mult], [mod],
    [and], [or], [not], [rmem] or [in].  If [w] is not a register reference,
    the loop iteration never completes: it crashes without having written a
    register or a memory cell, and the crash is the index-out-of-range panic
    of the register assignment, for the index [w - 32768], whenever the
    instruction raises no fault of its own before that assignment.  If [w]
    is a register reference, memory is untouched and the register file is
    either untouched or overwritten at register [w - 32768] only, the latter
    whenever the iteration completes. *)
Theorem destination_operand (vm vm1 : VirtualMachine) (io io1 : Console)
    (n0 opcode w : Z) (o : Outcome unit) :
  length (registers vm) = registersLength ->
  index (memory vm) (memoryIndex vm) = Some n0 -> resolvesTo vm n0 opcode ->
  In opcode destinationOpcodes ->
  index (memory vm) (memoryIndex vm + 1) = Some w ->
  step (vm, io) = (o, (vm1, io1)) ->
  (~ isRegisterReference w ->
   (exists f, o = Crashed f)
   /\ registers vm1 = registers vm /\ memory vm1 = memory vm
   /\ (faultless opcode vm io ->
       o = Crashed (IndexOutOfRange (w - 32768) registersLength)))
  /\ (isRegisterReference w ->
      memory vm1 = memory vm
      /\ (registers vm1 = registers vm
          \/ exists v, registers vm1 = <[Z.to_nat (w - 32768) := v]> (registers vm))
      /\ (o = Continue tt ->
          exists v, registers vm1 = <[Z.to_nat (w - 32768) := v]> (registers vm))).
Proof.
  intros Hlen H0 Hop Hin Hw Hstep.
  destruct (step_decompose vm vm1 io io1 n0 opcode o H0 Hop Hstep)
    as (o2 & vm2 & Hexec & Hm & Hr & _ & _ & Hfail & Hdone).
  destruct (destination_write opcode vm vm2 io io1 o2 Hin Hexec)
    as (Hm2 & Hnx & Hwrite & Hkeep).
  assert (Hwritten : o2 = Continue tt ->
            0 <= w - 32768 < Z.of_nat (length (registers vm))
            /\ exists v, registers vm1 = <[Z.to_nat (w - 32768) := v]> (registers vm)).
  { intros Ho2. destruct (Hwrite Ho2) as (w' & v & Hw' & Hrange & Hregs).
    rewrite Hw in Hw'. inversion Hw'; subst w'.
    unfold toRegisterIndex, modulo in *. split; [exact Hrange|].
    exists v. now rewrite Hr. }
  unfold isRegisterReference. split.
  - intros Hbad.
    assert (Hne : o2 <> Continue tt).
    { intros Ho2. destruct (Hwritten Ho2) as [Hrange _].
      rewrite Hlen in Hrange. unfold registersLength in Hrange. lia. }
    pose proof (Hfail Hne) as ->.
    split; [|split; [|split]].
    + destruct o2 as [[]| |f]; [congruence|congruence|eauto].
    + rewrite Hr. now apply Hkeep.
    + congruence.
    + intros Hready.
      assert (Hrange : ~ 0 <= toRegisterIndex w < Z.of_nat (length (registers vm))).
      { rewrite Hlen. unfold toRegisterIndex, modulo, registersLength. lia. }
      pose proof (destination_out_of_range opcode vm io w Hin Hw Hrange Hready) as Hf.
      rewrite Hexec in Hf. cbn [fst] in Hf. rewrite Hf, Hlen. reflexivity.
  - intros Hgood. split; [congruence|]. split.
    + destruct o2 as [[]| |f].
      * right. now apply Hwritten.
      * left. rewrite Hr. now apply Hkeep.
      * left. rewrite Hr. now apply Hkeep.
    + intros Ho. now apply Hwritten, Hdone.
Qed.

Lemma destination_operand_witness :
  fst (step (setMachine, emptyConsole)) =
    Crashed (IndexOutOfRange (0 - 32768) registersLength)
  /\ exists v, registers (fst (snd (step (addMachine, emptyConsole)))) =
               <[Z.to_nat (32768 - 32768) := v]> (registers addMachine).
Proof.
  split.
  - destruct (destination_operand setMachine _ emptyConsole _ 1 1 0 _
                eq_refl ltac:(vm_compute; reflexivity) ltac:(intros io; reflexivity)
                ltac:(cbn; tauto) ltac:(vm_compute; reflexivity)
                (run_eta (step (setMachine, emptyConsole))))
      as [Hbad _].
    destruct Hbad as (_ & _ & _ & Hfault).
    + unfold isRegisterReference. lia.
    + apply Hfault. exists 5, 5. split.
      * vm_compute. reflexivity.
      * intros io. reflexivity.
  - destruct (destination_operand addMachine _ emptyConsole _ 9 9 32768 _
                eq_refl ltac:(vm_compute; reflexivity) ltac:(intros io; reflexivity)
                ltac:(cbn; tauto) ltac:(vm_compute; reflexivity)
                (run_eta (step (addMachine, emptyConsole))))
      as [_ Hgood].
    destruct Hgood as (_ & _ & Hdone).
    + unfold isRegisterReference. lia.
    + apply Hdone. vm_compute. reflexivity.
Defined.

(** C4, as the specification states it, fails on [pop] with the literal 0 as
    destination and an empty stack: the word is not a register reference,
    and the process dies on the stack-underflow panic, which comes before
    the destination word is even fetched.  Where no other fault comes first
    ([set] with the same destination) the crash is the run-time bounds
    panic of the register array, for index -32768. *)
Lemma destination_fault_precedence :
  index (memory popMachine) (memoryIndex popMachine + 1) = Some 0
  /\ ~ isRegisterReference 0
  /\ fst (step (popMachine, emptyConsole)) = Crashed StackUnderflow
  /\ fst (step (setMachine, emptyConsole)) = Crashed (IndexOutOfRange (-32768) 8).
Proof.
  split; [vm_compute; reflexivity|].
  split; [unfold isRegisterReference; lia|].
  split; vm_compute; reflexivity.
Qed.

(** ** End-to-end runs (section 8 of the specification) *)

Example jump_then_halt :
  fst (Run 2 (jumpHaltMachine, emptyConsole)) = Exited
  /\ stdout (snd (snd (Run 2 (jumpHaltMachine, emptyConsole)))) = [].
Proof. split; vm_compute; reflexivity. Qed.

Example prints_A :
  fst (Run 3 (printMachine, emptyConsole)) = Exited
  /\ stdout (snd (snd (Run 3 (printMachine, emptyConsole)))) = [65].
Proof. split; vm_compute; reflexivity. Qed.

(** * Further properties of the instruction set

    The properties below cover the methods and the loop beyond the ones
    above: comparison, remainder and bitwise instructions, register and
    memory transfers, the stack, jumps, character input and output, unknown
    opcodes, and what a whole run keeps or never does. *)

(** ** Tools *)

Ltac stored_at r :=
  unfold registersLength in *; run_assign;
  replace (32768 + r - modulo) with r by (unfold modulo; lia).

Ltac run_update :=
  erewrite bind_Continue by (unfold updateVM; reflexivity); vm_fields.

Lemma bind_getVM {B : Type} (k : VirtualMachine -> M B) (s : State) :
  bind getVM k s = k (fst s) s.
Proof. reflexivity. Qed.

Lemma bind_checked_Some {A B : Type} (a : A) (f : Fault) (k : A -> M B) (s : State) :
  bind (checked (Some a) f) k s = k a s.
Proof. reflexivity. Qed.

Lemma continue_eta {A : Type} (r : Outcome A * State) (a : A) :
  fst r = Continue a -> r = (Continue a, (fst (snd r), snd (snd r))).
Proof. destruct r as [o [vm io]]. cbn. intros ->. reflexivity. Qed.

Lemma NewVirtualMachine_wellFormed (program : list Z) :
  wellFormed (NewVirtualMachine program).
Proof. split; [apply NewVirtualMachine_memory|reflexivity]. Qed.

(** ** Comparison, remainder and bitwise instructions *)

Lemma land_lor_15_bits (a b : Z) :
  0 <= a <= 32767 -> 0 <= b <= 32767 ->
  Z.land a b mod 32768 = Z.land a b /\ Z.lor a b mod 32768 = Z.lor a b.
Proof.
  intros Ha Hb.
  assert (Ha' : Z.land a (Z.ones 15) = a)
    by (rewrite Z.land_ones by lia; apply Z.mod_small; change (2 ^ 15) with 32768; lia).
  assert (Hb' : Z.land b (Z.ones 15) = b)
    by (rewrite Z.land_ones by lia; apply Z.mod_small; change (2 ^ 15) with 32768; lia).
  change 32768 with (2 ^ 15). rewrite <- !Z.land_ones by lia. split.
  - rewrite <- Z.land_assoc, Hb'. reflexivity.
  - rewrite Z.land_lor_distr_l, Ha', Hb'. reflexivity.
Qed.

Section ThreeOperands.

Variables (vm : VirtualMachine) (io : Console) (r n1 n2 a b : Z).
Hypothesis Hregisters : length (registers vm) = registersLength.
Hypothesis Hr : 0 <= r <= 7.
Hypothesis Hdst : index (memory vm) (memoryIndex vm + 1) = Some (32768 + r).
Hypothesis Hn1 : index (memory vm) (memoryIndex vm + 2) = Some n1.
Hypothesis Ha : resolvesTo vm n1 a.
Hypothesis Hn2 : index (memory vm) (memoryIndex vm + 3) = Some n2.
Hypothesis Hb : resolvesTo vm n2 b.

Ltac run_three :=
  run_next; run_next; run_value; run_next; run_value.

(** X1: when the destination word names register [r] and the operand words
    resolve to [a] and [b], [eq] (opcode 4) stores 1 if [a = b] and 0
    otherwise, and [gt] (opcode 5) stores 1 if [a > b] and 0 otherwise;
    no other value is ever stored. *)
Theorem comparison_flags :
  execute 4 (vm, io) = stores vm io 3 r (if a =? b then 1 else 0)
  /\ execute 5 (vm, io) = stores vm io 3 r (if a >? b then 1 else 0)
  /\ registers (fst (snd (execute 4 (vm, io)))) !! Z.to_nat r
     = Some (if a =? b then 1 else 0)
  /\ registers (fst (snd (execute 5 (vm, io)))) !! Z.to_nat r
     = Some (if a >? b then 1 else 0).
Proof.
  assert (Heq : execute 4 (vm, io) = stores vm io 3 r (if a =? b then 1 else 0)).
  { cbn [execute]. unfold eq_. run_three.
    destruct (a =? b); stored_at r; reflexivity. }
  assert (Hgt : execute 5 (vm, io) = stores vm io 3 r (if a >? b then 1 else 0)).
  { cbn [execute]. unfold gt. run_three.
    rewrite Z.gtb_ltb. destruct (b <? a); stored_at r; reflexivity. }
  split; [exact Heq|]. split; [exact Hgt|]. split.
  - exact (proj1 (written_register vm io 3 r _ _ Hregisters Hr Heq)).
  - exact (proj1 (written_register vm io 3 r _ _ Hregisters Hr Hgt)).
Qed.

(** X2: [mod] (opcode 11) with a non-zero divisor [b] stores
    [(a mod b) mod 32768], which is [a mod b] for [a] in [0, 32767]; with
    the divisor zero the process dies on the division panic after the three
    operands were consumed, and no register is written. *)
Theorem mod_by_divisor :
  (b <> 0 -> execute 11 (vm, io) = stores vm io 3 r ((a mod b) mod 32768))
  /\ (b = 0 ->
      execute 11 (vm, io) =
      (Crashed DivideByZero, (setMemoryIndex (memoryIndex vm + 3) vm, io)))
  /\ (0 <= a <= 32767 -> 0 < b -> (a mod b) mod 32768 = a mod b)
  /\ (b <> 0 ->
      registers (fst (snd (execute 11 (vm, io)))) !! Z.to_nat r
      = Some ((a mod b) mod 32768))
  /\ (b = 0 -> registers (fst (snd (execute 11 (vm, io)))) = registers vm).
Proof.
  assert (Hmod : b <> 0 ->
            execute 11 (vm, io) = stores vm io 3 r ((a mod b) mod 32768)).
  { intros Hne. cbn [execute]. unfold mod_. run_three.
    apply Z.eqb_neq in Hne. rewrite Hne. stored_at r. reflexivity. }
  assert (Hzero : b = 0 ->
            execute 11 (vm, io) =
            (Crashed DivideByZero, (setMemoryIndex (memoryIndex vm + 3) vm, io))).
  { intros Hz. cbn [execute]. unfold mod_. run_three. rewrite Hz. reflexivity. }
  split; [exact Hmod|]. split; [exact Hzero|]. split; [|split].
  - intros Hrange Hpos. apply Z.mod_small.
    pose proof (Z.mod_pos_bound a b Hpos).
    pose proof (Z.mod_le a b ltac:(lia) Hpos). lia.
  - intros Hne.
    exact (proj1 (written_register vm io 3 r _ _ Hregisters Hr (Hmod Hne))).
  - intros Hz. rewrite (Hzero Hz). reflexivity.
Qed.

(** X3: [and] (opcode 12) stores the bitwise and of the operands and [or]
    (opcode 13) their bitwise or, each reduced modulo 32768; for operands
    in [0, 32767] the reduction changes nothing. *)
Theorem bitwise_and_or :
  execute 12 (vm, io) = stores vm io 3 r (Z.land a b mod 32768)
  /\ execute 13 (vm, io) = stores vm io 3 r (Z.lor a b mod 32768)
  /\ (0 <= a <= 32767 -> 0 <= b <= 32767 ->
      Z.land a b mod 32768 = Z.land a b /\ Z.lor a b mod 32768 = Z.lor a b)
  /\ registers (fst (snd (execute 12 (vm, io)))) !! Z.to_nat r
     = Some (Z.land a b mod 32768)
  /\ registers (fst (snd (execute 13 (vm, io)))) !! Z.to_nat r
     = Some (Z.lor a b mod 32768).
Proof.
  assert (Hand : execute 12 (vm, io) = stores vm io 3 r (Z.land a b mod 32768)).
  { cbn [execute]. unfold and_. run_three. stored_at r. reflexivity. }
  assert (Hor : execute 13 (vm, io) = stores vm io 3 r (Z.lor a b mod 32768)).
  { cbn [execute]. unfold or_. run_three. stored_at r. reflexivity. }
  split; [exact Hand|]. split; [exact Hor|]. split; [apply land_lor_15_bits|].
  split.
  - exact (proj1 (written_register vm io 3 r _ _ Hregisters Hr Hand)).
  - exact (proj1 (written_register vm io 3 r _ _ Hregisters Hr Hor)).
Qed.

End ThreeOperands.

Lemma comparison_flags_witness :
  execute 4 (addMachine, emptyConsole) = stores addMachine emptyConsole 3 0 0
  /\ execute 5 (addMachine, emptyConsole) = stores addMachine emptyConsole 3 0 1
  /\ registers (fst (snd (execute 4 (addMachine, emptyConsole)))) !! Z.to_nat 0
     = Some 0
  /\ registers (fst (snd (execute 5 (addMachine, emptyConsole)))) !! Z.to_nat 0
     = Some 1.
Proof.
  refine (comparison_flags addMachine emptyConsole 0 32767 2 32767 2 _ _ _ _ _ _ _).
  - reflexivity.
  - lia.
  - vm_compute. reflexivity.
  - vm_compute. reflexivity.
  - intros io. reflexivity.
  - vm_compute. reflexivity.
  - intros io. reflexivity.
Defined.

Lemma mod_by_divisor_witness :
  execute 11 (addMachine, emptyConsole) =
    stores addMachine emptyConsole 3 0 ((32767 mod 2) mod 32768)
  /\ execute 11 (modZeroMachine, emptyConsole) =
      (Crashed DivideByZero,
       (setMemoryIndex (memoryIndex modZeroMachine + 3) modZeroMachine, emptyConsole))
  /\ registers (fst (snd (execute 11 (addMachine, emptyConsole)))) !! Z.to_nat 0
     = Some ((32767 mod 2) mod 32768).
Proof.
  split; [|split].
  - refine (proj1 (mod_by_divisor addMachine emptyConsole 0 32767 2 32767 2
                     _ _ _ _ _ _ _) _).
    + reflexivity.
    + lia.
    + vm_compute. reflexivity.
    + vm_compute. reflexivity.
    + intros io. reflexivity.
    + vm_compute. reflexivity.
    + intros io. reflexivity.
    + lia.
  - refine (proj1 (proj2 (mod_by_divisor modZeroMachine emptyConsole 0 7 0 7 0
                            _ _ _ _ _ _ _)) _).
    + reflexivity.
    + lia.
    + vm_compute. reflexivity.
    + vm_compute. reflexivity.
    + intros io. reflexivity.
    + vm_compute. reflexivity.
    + intros io. reflexivity.
    + reflexivity.
  - refine (proj1 (proj2 (proj2 (proj2 (mod_by_divisor addMachine emptyConsole
                                          0 32767 2 32767 2 _ _ _ _ _ _ _)))) _).
    + reflexivity.
    + lia.
    + vm_compute. reflexivity.
    + vm_compute. reflexivity.
    + intros io. reflexivity.
    + vm_compute. reflexivity.
    + intros io. reflexivity.
    + lia.
Defined.

Lemma bitwise_and_or_witness :
  (execute 12 (addMachine, emptyConsole) =
     stores addMachine emptyConsole 3 0 (Z.land 32767 2 mod 32768)
   /\ registers (fst (snd (execute 12 (addMachine, emptyConsole)))) !! Z.to_nat 0
      = Some (Z.land 32767 2 mod 32768))
  /\ execute 13 (addMachine, emptyConsole) =
    stores addMachine emptyConsole 3 0 (Z.lor 32767 2 mod 32768).
Proof.
  assert (H := bitwise_and_or addMachine emptyConsole 0 32767 2 32767 2).
  destruct H as (Hand & Hor & _ & Hand_r & _).
  - reflexivity.
  - lia.
  - vm_compute. reflexivity.
  - vm_compute. reflexivity.
  - intros io. reflexivity.
  - vm_compute. reflexivity.
  - intros io. reflexivity.
  - split; [split; [exact Hand|exact Hand_r]|exact Hor].
Defined.

(** ** Registers and the stack *)

(** X4: [set] (opcode 1) stores the resolved operand in the destination
    register; afterwards the register reference [32768 + r] resolves to the
    value stored, and every other register reference resolves as before. *)
Theorem set_read_back (vm : VirtualMachine) (io : Console) (r n1 v : Z) :
  length (registers vm) = registersLength ->
  0 <= r <= 7 ->
  index (memory vm) (memoryIndex vm + 1) = Some (32768 + r) ->
  index (memory vm) (memoryIndex vm + 2) = Some n1 -> resolvesTo vm n1 v ->
  execute 1 (vm, io) = stores vm io 2 r v
  /\ resolvesTo (fst (snd (stores vm io 2 r v))) (32768 + r) v
  /\ forall r' x : Z, 0 <= r' <= 7 -> r' <> r ->
       resolvesTo vm (32768 + r') x ->
       resolvesTo (fst (snd (stores vm io 2 r v))) (32768 + r') x.
Proof.
  intros Hlen Hr H1 H2 Hv. split; [|split].
  - cbn [execute]. unfold set_. run_next. run_next. run_value.
    stored_at r. reflexivity.
  - apply resolvesTo_register; [lia|]. unfold stores. vm_fields.
    replace (32768 + r - 32768) with r by lia.
    apply list_lookup_insert_eq. unfold registersLength in Hlen. lia.
  - intros r' x Hr' Hne Hx.
    assert (Hlook : registers vm !! Z.to_nat r' = Some x).
    { specialize (Hx io). unfold toValue in Hx.
      destruct (32776 <=? 32768 + r') eqn:E1; vm_bool; [lia|].
      destruct (modulo <=? 32768 + r') eqn:E2; unfold modulo in *; vm_bool; [|lia].
      vm_unfold. vm_fields. unfold toRegisterIndex, modulo in Hx.
      rewrite index_lookup in Hx by lia.
      replace (32768 + r' - 32768) with r' in Hx by lia.
      destruct (registers vm !! Z.to_nat r'); inversion Hx; reflexivity. }
    apply resolvesTo_register; [lia|]. unfold stores. vm_fields.
    replace (32768 + r' - 32768) with r' by lia.
    rewrite list_lookup_insert_ne by lia. exact Hlook.
Qed.

Lemma set_read_back_witness :
  execute 1 (printMachine, emptyConsole) = stores printMachine emptyConsole 2 0 65
  /\ resolvesTo (fst (snd (stores printMachine emptyConsole 2 0 65))) (32768 + 0) 65.
Proof.
  assert (H := set_read_back printMachine emptyConsole 0 65 65).
  destruct H as (Hset & Hback & _).
  - reflexivity.
  - lia.
  - vm_compute. reflexivity.
  - vm_compute. reflexivity.
  - intros io. reflexivity.
  - split; [exact Hset|exact Hback].
Defined.

Lemma pop_run (vm : VirtualMachine) (io : Console) (rest : list Z) (v r : Z) :
  length (registers vm) = registersLength -> 0 <= r <= 7 ->
  stack vm = rest ++ [v] ->
  index (memory vm) (memoryIndex vm + 1) = Some (32768 + r) ->
  pop (vm, io) =
  (Continue tt,
   (setRegisters (<[Z.to_nat r := v]> (registers vm))
      (setMemoryIndex (memoryIndex vm + 1) (setStack rest vm)), io)).
Proof.
  intros Hlen Hr Hstack Hdst. unfold pop.
  rewrite bind_getVM. vm_fields. rewrite Hstack, last_length.
  cbn [Nat.eqb]. replace (S (length rest) - 1)%nat with (length rest) by lia.
  rewrite list_lookup_middle by reflexivity. rewrite bind_checked_Some.
  rewrite take_app_length. run_update. run_next.
  stored_at r. reflexivity.
Qed.

(** X5: [push] (opcode 2) appends the resolved operand to the stack and
    touches nothing else but the counter; a [pop] (opcode 3) that finds the
    value on top of the stack removes exactly that element, stores it
    unchanged in the destination register and leaves the elements below in
    place: the stack is last in, first out. *)
Theorem push_then_pop (vm : VirtualMachine) (io : Console) (n v : Z) :
  index (memory vm) (memoryIndex vm + 1) = Some n -> resolvesTo vm n v ->
  execute 2 (vm, io) =
    (Continue tt,
     (setStack (stack vm ++ [v]) (setMemoryIndex (memoryIndex vm + 1) vm), io))
  /\ stack (fst (snd (execute 2 (vm, io)))) = stack vm ++ [v]
  /\ forall (vm2 : VirtualMachine) (io2 : Console) (rest : list Z) (r : Z),
      length (registers vm2) = registersLength -> 0 <= r <= 7 ->
      stack vm2 = rest ++ [v] ->
      index (memory vm2) (memoryIndex vm2 + 1) = Some (32768 + r) ->
      execute 3 (vm2, io2) =
        (Continue tt,
         (setRegisters (<[Z.to_nat r := v]> (registers vm2))
            (setMemoryIndex (memoryIndex vm2 + 1) (setStack rest vm2)), io2))
      /\ registers (fst (snd (execute 3 (vm2, io2)))) !! Z.to_nat r = Some v
      /\ stack (fst (snd (execute 3 (vm2, io2)))) = rest.
Proof.
  intros Hn Hv.
  assert (Hpush : execute 2 (vm, io) =
            (Continue tt,
             (setStack (stack vm ++ [v]) (setMemoryIndex (memoryIndex vm + 1) vm),
              io))).
  { cbn [execute]. unfold push. run_next. run_value. reflexivity. }
  split; [exact Hpush|]. split; [rewrite Hpush; reflexivity|].
  - intros vm2 io2 rest r Hlen Hr Hstack Hdst. cbn [execute].
    rewrite (pop_run vm2 io2 rest v r Hlen Hr Hstack Hdst).
    split; [reflexivity|]. vm_fields. split; [|reflexivity].
    apply list_lookup_insert_eq. unfold registersLength in Hlen. lia.
Qed.

Lemma push_then_pop_witness :
  stack (fst (snd (execute 2 (pushMachine, emptyConsole)))) = stack pushMachine ++ [7]
  /\ execute 3 (pushedMachine, emptyConsole) =
      (Continue tt,
       (setRegisters (<[Z.to_nat 0 := 7]> (registers pushedMachine))
          (setMemoryIndex (memoryIndex pushedMachine + 1)
             (setStack [] pushedMachine)),
        emptyConsole))
  /\ registers (fst (snd (execute 3 (pushedMachine, emptyConsole)))) !! Z.to_nat 0
     = Some 7
  /\ stack (fst (snd (execute 3 (pushedMachine, emptyConsole)))) = [].
Proof.
  assert (H := push_then_pop pushMachine emptyConsole 7 7).
  destruct H as (_ & Hpush & Hpop).
  - vm_compute. reflexivity.
  - intros io. reflexivity.
  - split; [exact Hpush|].
    apply (Hpop pushedMachine emptyConsole [] 0).
    + reflexivity.
    + lia.
    + reflexivity.
    + vm_compute. reflexivity.
Defined.

(** X6: [pop] on an empty stack dies on the stack-underflow panic before it
    reads its operand: no register receives a default value, and the
    machine and the console are exactly as they were. *)
Theorem pop_empty_stack (vm : VirtualMachine) (io : Console) :
  stack vm = [] ->
  execute 3 (vm, io) = (Crashed StackUnderflow, (vm, io))
  /\ forall n0 : Z,
      index (memory vm) (memoryIndex vm) = Some n0 -> resolvesTo vm n0 3 ->
      step (vm, io) = (Crashed StackUnderflow, (vm, io)).
Proof.
  intros Hstack.
  assert (Hpop : execute 3 (vm, io) = (Crashed StackUnderflow, (vm, io))).
  { cbn [execute]. unfold pop. rewrite bind_getVM. vm_fields. rewrite Hstack.
    reflexivity. }
  split; [exact Hpop|].
  intros n0 H0 Hop. unfold step.
  erewrite bind_Continue by (apply current_at; exact H0).
  erewrite bind_Continue by (apply Hop).
  erewrite bind_Crashed by (exact Hpop). reflexivity.
Qed.

Lemma pop_empty_stack_witness :
  step (popMachine, emptyConsole) = (Crashed StackUnderflow, (popMachine, emptyConsole)).
Proof.
  refine (proj2 (pop_empty_stack popMachine emptyConsole _) 3 _ _).
  - reflexivity.
  - vm_compute. reflexivity.
  - intros io. reflexivity.
Defined.

(** ** Jumps *)

Lemma next_out_of_range (q : Z) (vm : VirtualMachine) (io : Console) :
  q = memoryIndex vm + 1 -> index (memory vm) q = None ->
  next (vm, io) =
  (Crashed (IndexOutOfRange q (length (memory vm))), (setMemoryIndex q vm, io)).
Proof. intros -> H. vm_unfold. vm_fields. now rewrite H. Qed.

Lemma step_jump (vm : VirtualMachine) (io : Console) (n0 opcode t : Z) :
  index (memory vm) (memoryIndex vm) = Some n0 -> resolvesTo vm n0 opcode ->
  execute opcode (vm, io) = (Continue tt, (setMemoryIndex (t - 1) vm, io)) ->
  jumpsTo vm io t.
Proof.
  intros H0 Hop Hexec. split.
  - intros w Hw.
    rewrite (step_continue vm (setMemoryIndex (t - 1) vm) io io n0 opcode t w H0 Hop);
      [reflexivity|exact Hexec|vm_fields; lia|vm_fields; exact Hw].
  - intros Hnone. unfold step.
    erewrite bind_Continue by (apply current_at; exact H0).
    erewrite bind_Continue by (apply Hop).
    erewrite bind_Continue by (exact Hexec).
    erewrite bind_Crashed
      by (apply (next_out_of_range t); [vm_fields; lia|vm_fields; exact Hnone]).
    reflexivity.
Qed.

(** X7: a [jmp] (opcode 6), a [jt] (7) whose condition resolves to a
    non-zero value and a [jf] (8) whose condition resolves to zero move the
    counter to the resolved target and change nothing else: the loop
    iteration completes when the target is an address of the memory array
    and dies on the fetch at the target otherwise. *)
Theorem jump_taken (vm : VirtualMachine) (io : Console) (n0 opcode : Z) :
  index (memory vm) (memoryIndex vm) = Some n0 -> resolvesTo vm n0 opcode ->
  (opcode = 6 ->
   forall n t : Z,
     index (memory vm) (memoryIndex vm + 1) = Some n -> resolvesTo vm n t ->
     jumpsTo vm io t)
  /\ (forall n1 c n2 t : Z,
      index (memory vm) (memoryIndex vm + 1) = Some n1 -> resolvesTo vm n1 c ->
      index (memory vm) (memoryIndex vm + 2) = Some n2 -> resolvesTo vm n2 t ->
      (opcode = 7 /\ c <> 0) \/ (opcode = 8 /\ c = 0) ->
      jumpsTo vm io t).
Proof.
  intros H0 Hop. split.
  - intros -> n t Hn Ht. apply (step_jump vm io n0 6 t H0 Hop).
    cbn [execute]. now apply (jump_run vm io n t).
  - intros n1 c n2 t H1 Hc H2 Ht Hbranch.
    apply (step_jump vm io n0 opcode t H0 Hop).
    destruct Hbranch as [[-> Hne]|[-> ->]]; cbn [execute]; [unfold jt|unfold jf].
    + run_next. run_value. apply Z.eqb_neq in Hne. rewrite Hne. cbn [negb].
      rewrite (jump_run _ io n2 t); [reflexivity|vm_fields| ].
      * replace (memoryIndex vm + 1 + 1) with (memoryIndex vm + 2) by lia. exact H2.
      * apply (resolvesTo_registers vm); [reflexivity|exact Ht].
    + run_next. run_value. cbn [Z.eqb].
      rewrite (jump_run _ io n2 t); [reflexivity|vm_fields| ].
      * replace (memoryIndex vm + 1 + 1) with (memoryIndex vm + 2) by lia. exact H2.
      * apply (resolvesTo_registers vm); [reflexivity|exact Ht].
Qed.

Lemma jump_taken_witness :
  step (jumpHaltMachine, emptyConsole) =
    (Continue tt, (setMemoryIndex 3 jumpHaltMachine, emptyConsole))
  /\ step (jtTakenMachine, emptyConsole) =
    (Continue tt, (setMemoryIndex 3 jtTakenMachine, emptyConsole))
  /\ step (jumpTop, emptyConsole) =
    (Crashed (IndexOutOfRange 32767 (length (memory jumpTop))),
     (setMemoryIndex 32767 jumpTop, emptyConsole)).
Proof.
  split; [|split].
  - refine (proj1 (proj1 (jump_taken jumpHaltMachine emptyConsole 6 6 _ _)
                     eq_refl 3 3 _ _) 0 _).
    + vm_compute. reflexivity.
    + intros io. reflexivity.
    + vm_compute. reflexivity.
    + intros io. reflexivity.
    + vm_compute. reflexivity.
  - refine (proj1 (proj2 (jump_taken jtTakenMachine emptyConsole 7 7 _ _)
                     1 1 3 3 _ _ _ _ _) 0 _).
    + vm_compute. reflexivity.
    + intros io. reflexivity.
    + vm_compute. reflexivity.
    + intros io. reflexivity.
    + vm_compute. reflexivity.
    + intros io. reflexivity.
    + left. split; [reflexivity|lia].
    + vm_compute. reflexivity.
  - refine (proj2 (proj1 (jump_taken jumpTop emptyConsole 6 6 _ _)
                     eq_refl 32767 32767 _ _) _).
    + vm_compute. reflexivity.
    + intros io. reflexivity.
    + vm_compute. reflexivity.
    + intros io. reflexivity.
    + vm_compute. reflexivity.
Defined.

(** ** Memory transfers *)

Lemma assignMemory_run (vm : VirtualMachine) (io : Console) (a v : Z) :
  0 <= a < Z.of_nat (length (memory vm)) ->
  assignMemory a v (vm, io) =
  (Continue tt, (setMemory (<[Z.to_nat a := v]> (memory vm)) vm, io)).
Proof.
  intros Ha. vm_unfold. vm_fields.
  destruct ((0 <=? a) && (a <? Z.of_nat (length (memory vm)))) eqn:E; [reflexivity|].
  vm_bool. lia.
Qed.

Lemma assignMemory_out_of_range (vm : VirtualMachine) (io : Console) (a v : Z) :
  ~ 0 <= a < Z.of_nat (length (memory vm)) ->
  assignMemory a v (vm, io) =
  (Crashed (IndexOutOfRange a (length (memory vm))), (vm, io)).
Proof.
  intros Ha. vm_unfold. vm_fields.
  destruct ((0 <=? a) && (a <? Z.of_nat (length (memory vm)))) eqn:E; [|reflexivity].
  vm_bool. lia.
Qed.

Lemma index_insert_eq (l : list Z) (a v : Z) :
  0 <= a < Z.of_nat (length l) -> index (<[Z.to_nat a := v]> l) a = Some v.
Proof.
  intros Ha. rewrite index_lookup by lia. apply list_lookup_insert_eq. lia.
Qed.

Lemma index_insert_ne (l : list Z) (a a' v : Z) :
  0 <= a -> a' <> a -> index (<[Z.to_nat a := v]> l) a' = index l a'.
Proof.
  intros Ha Hne. unfold index. destruct (0 <=? a') eqn:E; [|reflexivity].
  vm_bool. apply list_lookup_insert_ne. lia.
Qed.

(** X8: [wmem] (opcode 16) resolves both of its operands as values.  When
    the address is inside the memory array it overwrites that one cell: the
    cell then holds the value, every other cell keeps its content and the
    array keeps its length.  When the address is outside the array the
    process dies on the index panic and memory is untouched. *)
Theorem write_memory (vm : VirtualMachine) (io : Console) (n1 n2 a v : Z) :
  index (memory vm) (memoryIndex vm + 1) = Some n1 -> resolvesTo vm n1 a ->
  index (memory vm) (memoryIndex vm + 2) = Some n2 -> resolvesTo vm n2 v ->
  (0 <= a < Z.of_nat (length (memory vm)) ->
   execute 16 (vm, io) =
     (Continue tt,
      (setMemory (<[Z.to_nat a := v]> (memory vm))
         (setMemoryIndex (memoryIndex vm + 2) vm), io))
   /\ index (<[Z.to_nat a := v]> (memory vm)) a = Some v
   /\ (forall a' : Z, a' <> a ->
         index (<[Z.to_nat a := v]> (memory vm)) a' = index (memory vm) a')
   /\ length (<[Z.to_nat a := v]> (memory vm)) = length (memory vm))
  /\ (~ 0 <= a < Z.of_nat (length (memory vm)) ->
      execute 16 (vm, io) =
        (Crashed (IndexOutOfRange a (length (memory vm))),
         (setMemoryIndex (memoryIndex vm + 2) vm, io)))
  /\ (0 <= a < Z.of_nat (length (memory vm)) ->
      index (memory (fst (snd (execute 16 (vm, io))))) a = Some v
      /\ (forall a' : Z, a' <> a ->
            index (memory (fst (snd (execute 16 (vm, io))))) a'
            = index (memory vm) a')
      /\ registers (fst (snd (execute 16 (vm, io)))) = registers vm)
  /\ (~ 0 <= a < Z.of_nat (length (memory vm)) ->
      memory (fst (snd (execute 16 (vm, io)))) = memory vm).
Proof.
  intros H1 Ha H2 Hv.
  assert (Hwrite : 0 <= a < Z.of_nat (length (memory vm)) ->
            execute 16 (vm, io) =
            (Continue tt,
             (setMemory (<[Z.to_nat a := v]> (memory vm))
                (setMemoryIndex (memoryIndex vm + 2) vm), io))).
  { intros Hin. cbn [execute]. unfold write.
    run_next. run_value. run_next. run_value.
    rewrite assignMemory_run by (vm_fields; exact Hin). reflexivity. }
  assert (Hcrash : ~ 0 <= a < Z.of_nat (length (memory vm)) ->
            execute 16 (vm, io) =
            (Crashed (IndexOutOfRange a (length (memory vm))),
             (setMemoryIndex (memoryIndex vm + 2) vm, io))).
  { intros Hout. cbn [execute]. unfold write.
    run_next. run_value. run_next. run_value.
    rewrite assignMemory_out_of_range by (vm_fields; exact Hout). reflexivity. }
  split; [|split; [exact Hcrash|split]].
  - intros Hin. split; [exact (Hwrite Hin)|]. split; [|split].
    + now apply index_insert_eq.
    + intros a' Hne. apply index_insert_ne; [lia|exact Hne].
    + apply length_insert.
  - intros Hin. rewrite (Hwrite Hin). vm_fields. split; [|split].
    + now apply index_insert_eq.
    + intros a' Hne. apply index_insert_ne; [lia|exact Hne].
    + reflexivity.
  - intros Hout. rewrite (Hcrash Hout). reflexivity.
Qed.

Lemma write_memory_witness :
  execute 16 (writeMachine, emptyConsole) =
    (Continue tt,
     (setMemory (<[Z.to_nat 3 := 21]> (memory writeMachine))
        (setMemoryIndex (memoryIndex writeMachine + 2) writeMachine), emptyConsole))
  /\ execute 16 (writeTop, emptyConsole) =
    (Crashed (IndexOutOfRange 32767 (length (memory writeTop))),
     (setMemoryIndex (memoryIndex writeTop + 2) writeTop, emptyConsole))
  /\ index (memory (fst (snd (execute 16 (writeMachine, emptyConsole))))) 3 = Some 21.
Proof.
  split; [|split].
  - refine (proj1 (proj1 (write_memory writeMachine emptyConsole 3 21 3 21 _ _ _ _) _)).
    + vm_compute. reflexivity.
    + intros io. reflexivity.
    + vm_compute. reflexivity.
    + intros io. reflexivity.
    + unfold writeMachine, writeTop.
      rewrite (proj1 (NewVirtualMachine_memory _)). unfold memoryLength. lia.
  - refine (proj1 (proj2 (write_memory writeTop emptyConsole 32767 0 32767 0
                            _ _ _ _)) _).
    + vm_compute. reflexivity.
    + intros io. reflexivity.
    + vm_compute. reflexivity.
    + intros io. reflexivity.
    + unfold writeMachine, writeTop.
      rewrite (proj1 (NewVirtualMachine_memory _)). unfold memoryLength. lia.
  - refine (proj1 (proj1 (proj2 (proj2 (write_memory writeMachine emptyConsole
                                          3 21 3 21 _ _ _ _))) _)).
    + vm_compute. reflexivity.
    + intros io. reflexivity.
    + vm_compute. reflexivity.
    + intros io. reflexivity.
    + unfold writeMachine, writeTop.
      rewrite (proj1 (NewVirtualMachine_memory _)). unfold memoryLength. lia.
Defined.

(** X9: [rmem] (opcode 15) stores in the destination register the content
    of the memory cell at the resolved address, as it is (not reduced modulo
    32768); when the address is outside the memory array the process dies on
    the index panic and no register is written. *)
Theorem read_memory (vm : VirtualMachine) (io : Console) (r n1 a : Z) :
  length (registers vm) = registersLength -> 0 <= r <= 7 ->
  index (memory vm) (memoryIndex vm + 1) = Some (32768 + r) ->
  index (memory vm) (memoryIndex vm + 2) = Some n1 -> resolvesTo vm n1 a ->
  (forall x : Z, index (memory vm) a = Some x ->
     execute 15 (vm, io) = stores vm io 2 r x)
  /\ (index (memory vm) a = None ->
      execute 15 (vm, io) =
        (Crashed (IndexOutOfRange a (length (memory vm))),
         (setMemoryIndex (memoryIndex vm + 2) vm, io)))
  /\ (forall x : Z, index (memory vm) a = Some x ->
        registers (fst (snd (execute 15 (vm, io)))) !! Z.to_nat r = Some x)
  /\ (index (memory vm) a = None ->
      registers (fst (snd (execute 15 (vm, io)))) = registers vm).
Proof.
  intros Hlen Hr H1 H2 Ha.
  assert (Hread : forall x : Z, index (memory vm) a = Some x ->
            execute 15 (vm, io) = stores vm io 2 r x).
  { intros x Hx. cbn [execute]. unfold read. run_next. run_next. run_value.
    rewrite bind_getVM. vm_fields. rewrite Hx, bind_checked_Some.
    stored_at r. reflexivity. }
  assert (Hcrash : index (memory vm) a = None ->
            execute 15 (vm, io) =
            (Crashed (IndexOutOfRange a (length (memory vm))),
             (setMemoryIndex (memoryIndex vm + 2) vm, io))).
  { intros Hx. cbn [execute]. unfold read. run_next. run_next. run_value.
    rewrite bind_getVM. vm_fields. rewrite Hx. reflexivity. }
  split; [exact Hread|]. split; [exact Hcrash|]. split.
  - intros x Hx.
    exact (proj1 (written_register vm io 2 r x _ Hlen Hr (Hread x Hx))).
  - intros Hx. rewrite (Hcrash Hx). reflexivity.
Qed.

Lemma read_memory_witness :
  execute 15 (readMachine, emptyConsole) = stores readMachine emptyConsole 2 0 2
  /\ execute 15 (readTop, emptyConsole) =
    (Crashed (IndexOutOfRange 32767 (length (memory readTop))),
     (setMemoryIndex (memoryIndex readTop + 2) readTop, emptyConsole))
  /\ registers (fst (snd (execute 15 (readMachine, emptyConsole)))) !! Z.to_nat 0
     = Some 2.
Proof.
  split; [|split].
  - refine (proj1 (read_memory readMachine emptyConsole 0 2 2 _ _ _ _ _) 2 _).
    + reflexivity.
    + lia.
    + vm_compute. reflexivity.
    + vm_compute. reflexivity.
    + intros io. reflexivity.
    + vm_compute. reflexivity.
  - refine (proj1 (proj2 (read_memory readTop emptyConsole 0 32767 32767
                            _ _ _ _ _)) _).
    + reflexivity.
    + lia.
    + vm_compute. reflexivity.
    + vm_compute. reflexivity.
    + intros io. reflexivity.
    + vm_compute. reflexivity.
  - refine (proj1 (proj2 (proj2 (read_memory readMachine emptyConsole 0 2 2
                                   _ _ _ _ _))) 2 _).
    + reflexivity.
    + lia.
    + vm_compute. reflexivity.
    + vm_compute. reflexivity.
    + intros io. reflexivity.
    + vm_compute. reflexivity.
Defined.

(** ** Character output and input *)

(** X10: [out] (opcode 19) appends exactly one character to the output, the
    one whose code point is the resolved operand, and changes nothing else
    but the counter; a code point of the surrogate range 55296..57343 is
    printed as the replacement character 65533. *)
Theorem print_character (vm : VirtualMachine) (io : Console) (n v : Z) :
  index (memory vm) (memoryIndex vm + 1) = Some n -> resolvesTo vm n v ->
  execute 19 (vm, io) =
    (Continue tt,
     (setMemoryIndex (memoryIndex vm + 1) vm,
      {| stdin := stdin io; stdout := stdout io ++ [runeOf v] |}))
  /\ (v < 55296 \/ 57343 < v -> runeOf v = v)
  /\ (55296 <= v <= 57343 -> runeOf v = 65533).
Proof.
  intros Hn Hv. split; [|split].
  - cbn [execute]. unfold print. run_next. run_value. reflexivity.
  - intros Hrange. unfold runeOf.
    destruct ((55296 <=? v) && (v <=? 57343)) eqn:E; [|reflexivity]. vm_bool. lia.
  - intros Hrange. unfold runeOf.
    destruct ((55296 <=? v) && (v <=? 57343)) eqn:E; [reflexivity|].
    vm_bool. lia.
Qed.

Lemma print_character_witness :
  execute 19 (outMachine, emptyConsole) =
    (Continue tt,
     (setMemoryIndex (memoryIndex outMachine + 1) outMachine,
      {| stdin := stdin emptyConsole; stdout := stdout emptyConsole ++ [runeOf 65] |})).
Proof.
  refine (proj1 (print_character outMachine emptyConsole 65 65 _ _)).
  - vm_compute. reflexivity.
  - intros io. reflexivity.
Defined.

Lemma index_head {A : Type} (c : A) (l : list A) : index (c :: l) 0 = Some c.
Proof. reflexivity. Qed.

(** X11: [in] (opcode 20) takes the first character of the input buffer,
    stores its code point (truncated to 16 bits) in the destination register
    and leaves the rest in the buffer, without touching standard input.
    With an empty buffer it first reads from standard input, through a
    reader of its own, up to the first line feed, and the buffer becomes the
    characters of that line; when the input ends before a line feed the
    process dies on the fatal log call and no register is written. *)
Theorem ask_character (vm : VirtualMachine) (io : Console) (r : Z) :
  length (registers vm) = registersLength -> 0 <= r <= 7 ->
  index (memory vm) (memoryIndex vm + 1) = Some (32768 + r) ->
  (forall (c : Z) (rest : list Z), input vm = c :: rest ->
     execute 20 (vm, io) =
       (Continue tt,
        (setInput rest
           (setRegisters (<[Z.to_nat r := Number c]> (registers vm))
              (setMemoryIndex (memoryIndex vm + 1) vm)), io))
     /\ registers (fst (snd (execute 20 (vm, io)))) !! Z.to_nat r = Some (Number c)
     /\ input (fst (snd (execute 20 (vm, io)))) = rest)
  /\ (forall (line : list byte) (more : list (list byte)) (c : Z) (tail : list Z),
        input vm = [] ->
        ReadString x0a (stdin io) [] = (Some line, more) ->
        runes line = c :: tail ->
        execute 20 (vm, io) =
          (Continue tt,
           (setInput tail
              (setRegisters (<[Z.to_nat r := Number c]> (registers vm))
                 (setMemoryIndex (memoryIndex vm + 1) vm)),
            {| stdin := more; stdout := stdout io |}))
        /\ registers (fst (snd (execute 20 (vm, io)))) !! Z.to_nat r
           = Some (Number c)
        /\ input (fst (snd (execute 20 (vm, io)))) = tail
        /\ stdin (snd (snd (execute 20 (vm, io)))) = more)
  /\ (forall more : list (list byte),
        input vm = [] ->
        ReadString x0a (stdin io) [] = (None, more) ->
        execute 20 (vm, io) =
          (Crashed InputFailure, (vm, {| stdin := more; stdout := stdout io |}))).
Proof.
  intros Hlen Hr Hdst. split; [|split].
  - intros c rest Hinput.
    assert (Hrun : execute 20 (vm, io) =
              (Continue tt,
               (setInput rest
                  (setRegisters (<[Z.to_nat r := Number c]> (registers vm))
                     (setMemoryIndex (memoryIndex vm + 1) vm)), io))).
    { cbn [execute]. unfold ask.
      rewrite bind_getVM. vm_fields. rewrite Hinput. cbn [length Nat.eqb].
      erewrite bind_Continue by reflexivity.
      run_next. rewrite bind_getVM. vm_fields. rewrite Hinput.
      rewrite index_head, bind_checked_Some.
      unfold registersLength in Hlen.
      erewrite bind_Continue
        by (apply assignRegister_run; vm_fields; unfold toRegisterIndex, modulo; lia).
      unfold updateVM, toRegisterIndex. vm_fields. rewrite Hinput.
      replace (32768 + r - modulo) with r by (unfold modulo; lia). reflexivity. }
    rewrite Hrun. split; [reflexivity|]. vm_fields. split; [|reflexivity].
    apply list_lookup_insert_eq. unfold registersLength in Hlen. lia.
  - intros line more c tail Hinput Hstdin Hline.
    assert (Hrun : execute 20 (vm, io) =
              (Continue tt,
               (setInput tail
                  (setRegisters (<[Z.to_nat r := Number c]> (registers vm))
                     (setMemoryIndex (memoryIndex vm + 1) vm)),
                {| stdin := more; stdout := stdout io |}))).
    { cbn [execute]. unfold ask.
      rewrite bind_getVM. vm_fields. rewrite Hinput. cbn [length Nat.eqb].
      erewrite bind_Continue
        by (unfold bind, readLine, updateVM; vm_fields; rewrite Hstdin; reflexivity).
      run_next. rewrite bind_getVM. vm_fields. rewrite Hline.
      rewrite index_head, bind_checked_Some.
      unfold registersLength in Hlen.
      erewrite bind_Continue
        by (apply assignRegister_run; vm_fields; unfold toRegisterIndex, modulo; lia).
      unfold updateVM, toRegisterIndex. vm_fields.
      replace (32768 + r - modulo) with r by (unfold modulo; lia). reflexivity. }
    rewrite Hrun. split; [reflexivity|]. vm_fields.
    split; [|split; reflexivity].
    apply list_lookup_insert_eq. unfold registersLength in Hlen. lia.
  - intros more Hinput Hstdin. cbn [execute]. unfold ask.
    rewrite bind_getVM. vm_fields. rewrite Hinput. cbn [length Nat.eqb].
    erewrite bind_Crashed
      by (unfold bind, readLine; vm_fields; rewrite Hstdin; reflexivity).
    reflexivity.
Qed.

Lemma ask_character_witness :
  registers (fst (snd (execute 20 (askBufferedMachine, lineConsole)))) !! Z.to_nat 0
    = Some (Number 105)
  /\ execute 20 (askMachine, lineConsole) =
    (Continue tt,
     (setInput [10]
        (setRegisters (<[Z.to_nat 0 := Number 104]> (registers askMachine))
           (setMemoryIndex (memoryIndex askMachine + 1) askMachine)),
      {| stdin := []; stdout := stdout lineConsole |}))
  /\ execute 20 (askMachine, emptyConsole) =
    (Crashed InputFailure,
     (askMachine, {| stdin := []; stdout := stdout emptyConsole |})).
Proof.
  split; [|split].
  - refine (proj1 (proj2 (proj1 (ask_character askBufferedMachine lineConsole 0 _ _ _)
                            105 [10] _))).
    + reflexivity.
    + lia.
    + vm_compute. reflexivity.
    + reflexivity.
  - refine (proj1 (proj1 (proj2 (ask_character askMachine lineConsole 0 _ _ _))
                     [x68; x0a] [] 104 [10] _ _ _)).
    + reflexivity.
    + lia.
    + vm_compute. reflexivity.
    + reflexivity.
    + reflexivity.
    + reflexivity.
  - refine (proj2 (proj2 (ask_character askMachine emptyConsole 0 _ _ _)) [] _ _).
    + reflexivity.
    + lia.
    + vm_compute. reflexivity.
    + reflexivity.
    + reflexivity.
Defined.

Lemma upToDelim_first (delim : byte) (line after : list byte) :
  ~ In delim line ->
  upToDelim delim (line ++ delim :: after) = Some (line ++ [delim]).
Proof.
  induction line as [|c line IH]; intros Hnot; cbn [app upToDelim].
  - rewrite (Byte.byte_dec_lb (eq_refl delim)). reflexivity.
  - destruct (Byte.eqb c delim) eqn:E.
    + apply Byte.byte_dec_bl in E. subst c. exfalso. apply Hnot. now left.
    + rewrite IH; [reflexivity|]. intros Hin. apply Hnot. now right.
Qed.

Lemma upToDelim_none (delim : byte) (chunk : list byte) :
  ~ In delim chunk -> upToDelim delim chunk = None.
Proof.
  induction chunk as [|c chunk IH]; intros Hnot; cbn [upToDelim]; [reflexivity|].
  destruct (Byte.eqb c delim) eqn:E.
  - apply Byte.byte_dec_bl in E. subst c. exfalso. apply Hnot. now left.
  - rewrite IH; [reflexivity|]. intros Hin. apply Hnot. now right.
Qed.

Lemma ReadString_unterminated (delim : byte) (reads : list (list byte))
    (acc : list byte) :
  ~ In delim (concat reads) -> exists rest, ReadString delim reads acc = (None, rest).
Proof.
  revert acc. induction reads as [|chunk reads IH]; intros acc Hnot.
  - exists []. reflexivity.
  - cbn [concat] in Hnot. destruct chunk as [|c chunk].
    + exists reads. reflexivity.
    + cbn [ReadString]. rewrite upToDelim_none.
      * apply IH. intros Hin. apply Hnot. apply in_or_app. now right.
      * intros Hin. apply Hnot. apply in_or_app. now left.
Qed.

(** X19: what standard input delivers after the first line feed, in the
    same read, is lost.  When the buffer is empty and the next read returns
    a line, its line feed and further bytes, [in] keeps the characters of
    the line and its line feed only: the further bytes are neither in the
    buffer nor left on standard input, whose next read is the one after. *)
Theorem read_ahead_is_lost (vm : VirtualMachine) (io : Console) (r : Z)
    (line after : list byte) (more : list (list byte)) :
  length (registers vm) = registersLength -> 0 <= r <= 7 ->
  index (memory vm) (memoryIndex vm + 1) = Some (32768 + r) ->
  input vm = [] -> ~ In x0a line ->
  stdin io = (line ++ x0a :: after) :: more ->
  exists (c : Z) (tail : list Z),
    runes (line ++ [x0a]) = c :: tail
    /\ execute 20 (vm, io) =
         (Continue tt,
          (setInput tail
             (setRegisters (<[Z.to_nat r := Number c]> (registers vm))
                (setMemoryIndex (memoryIndex vm + 1) vm)),
           {| stdin := more; stdout := stdout io |}))
    /\ input (fst (snd (execute 20 (vm, io)))) = tail
    /\ stdin (snd (snd (execute 20 (vm, io)))) = more.
Proof.
  intros Hlen Hr Hdst Hinput Hnot Hstdin.
  assert (Hread : ReadString x0a (stdin io) [] = (Some (line ++ [x0a]), more)).
  { rewrite Hstdin. cbn [ReadString].
    rewrite (upToDelim_first x0a line after Hnot).
    destruct line; reflexivity. }
  destruct (runes (line ++ [x0a])) as [|c tail] eqn:Hline.
  { exfalso. revert Hline. apply runes_line. destruct line; discriminate. }
  exists c, tail. split; [reflexivity|].
  assert (Hrun : execute 20 (vm, io) =
            (Continue tt,
             (setInput tail
                (setRegisters (<[Z.to_nat r := Number c]> (registers vm))
                   (setMemoryIndex (memoryIndex vm + 1) vm)),
              {| stdin := more; stdout := stdout io |}))).
  { cbn [execute]. unfold ask.
    rewrite bind_getVM. vm_fields. rewrite Hinput. cbn [length Nat.eqb].
    erewrite bind_Continue
      by (unfold bind, readLine, updateVM; vm_fields; rewrite Hread; reflexivity).
    run_next. rewrite bind_getVM. vm_fields. rewrite Hline.
    rewrite index_head, bind_checked_Some.
    unfold registersLength in Hlen.
    erewrite bind_Continue
      by (apply assignRegister_run; vm_fields; unfold toRegisterIndex, modulo; lia).
    unfold updateVM, toRegisterIndex. vm_fields.
    replace (32768 + r - modulo) with r by (unfold modulo; lia). reflexivity. }
  rewrite Hrun. split; [reflexivity|]. split; reflexivity.
Qed.

Lemma read_ahead_is_lost_witness :
  exists (c : Z) (tail : list Z),
    runes ([x68] ++ [x0a]) = c :: tail
    /\ execute 20 (askMachine, pipeConsole) =
         (Continue tt,
          (setInput tail
             (setRegisters (<[Z.to_nat 0 := Number c]> (registers askMachine))
                (setMemoryIndex (memoryIndex askMachine + 1) askMachine)),
           {| stdin := []; stdout := stdout pipeConsole |}))
    /\ input (fst (snd (execute 20 (askMachine, pipeConsole)))) = tail
    /\ stdin (snd (snd (execute 20 (askMachine, pipeConsole)))) = [].
Proof.
  apply (read_ahead_is_lost askMachine pipeConsole 0 [x68] [x69; x0a] []).
  - reflexivity.
  - lia.
  - vm_compute. reflexivity.
  - reflexivity.
  - intros [H|[]]. discriminate H.
  - reflexivity.
Defined.

(** X20: input that ends before a line feed is a failure, whatever was read
    before its end.  When the buffer is empty and standard input holds no
    line feed, [in] ends the process on the fatal log call: the machine is
    as it was, no register is written and the counter has not moved. *)
Theorem unterminated_input (vm : VirtualMachine) (io : Console) :
  input vm = [] -> ~ In x0a (concat (stdin io)) ->
  exists rest : list (list byte),
    execute 20 (vm, io) =
      (Crashed InputFailure, (vm, {| stdin := rest; stdout := stdout io |})).
Proof.
  intros Hinput Hnot.
  destruct (ReadString_unterminated x0a (stdin io) [] Hnot) as [rest Hread].
  exists rest. cbn [execute]. unfold ask.
  rewrite bind_getVM. vm_fields. rewrite Hinput. cbn [length Nat.eqb].
  erewrite bind_Crashed
    by (unfold bind, readLine; vm_fields; rewrite Hread; reflexivity).
  reflexivity.
Qed.

Lemma unterminated_input_witness :
  exists rest : list (list byte),
    execute 20 (askMachine, unterminatedConsole) =
      (Crashed InputFailure,
       (askMachine, {| stdin := rest; stdout := stdout unterminatedConsole |})).
Proof.
  apply (unterminated_input askMachine unterminatedConsole).
  - reflexivity.
  - cbn. intros [H|[H|[]]]; discriminate H.
Defined.

Lemma decoderune_size (s : list byte) : (1 <= snd (decoderune s))%nat.
Proof.
  unfold decoderune.
  repeat match goal with
    | |- context [match ?l with [] => _ | _ :: _ => _ end] => destruct l
    | |- context [if ?c then _ else _] => destruct c
    end; cbn [snd]; lia.
Qed.

(** The length of the string is fuel enough for its conversion. *)
Lemma runesLoop_fuel (n m : nat) (s : list byte) :
  (length s <= n)%nat -> (length s <= m)%nat -> runesLoop n s = runesLoop m s.
Proof.
  revert m s. induction n as [|n IH]; intros m s Hn Hm.
  - destruct s; [|cbn in Hn; lia]. destruct m; reflexivity.
  - destruct s as [|s0 s]; [destruct m; reflexivity|].
    destruct m as [|m]; [cbn in Hm; lia|].
    cbn [runesLoop].
    pose proof (decoderune_size (s0 :: s)) as Hsize.
    destruct (if byteValue s0 <? 128 then (byteValue s0, 1%nat)
              else decoderune (s0 :: s)) as [c size] eqn:E.
    assert (1 <= size)%nat as Hpos.
    { destruct (byteValue s0 <? 128).
      - inversion E. lia.
      - rewrite E in Hsize. exact Hsize. }
    f_equal. apply IH; rewrite length_drop; cbn [length] in *; lia.
Qed.

(** X21: the characters of a line.  The conversion of the line to
    characters takes every byte below 128 as the character of that code, so
    that a line of such bytes fills the buffer with as many characters as it
    has bytes.  For any line the conversion reaches the end of the line: a
    larger bound on its loop gives the same characters. *)
Theorem runes_ascii (s : list byte) :
  (Forall (fun b => byteValue b < 128) s ->
   runes s = map byteValue s /\ length (runes s) = length s)
  /\ (forall n : nat, (length s <= n)%nat -> runesLoop n s = runes s).
Proof.
  split.
  - intros Hascii.
    assert (Hmap : runes s = map byteValue s).
    { induction Hascii as [|s0 s H0 Hs IH]; [reflexivity|].
      unfold runes. cbn [length runesLoop map].
      apply Z.ltb_lt in H0. rewrite H0. cbn [drop]. f_equal. exact IH. }
    split; [exact Hmap|]. rewrite Hmap. apply length_map.
  - intros n Hn. unfold runes. apply runesLoop_fuel; [exact Hn|lia].
Qed.

Lemma runes_ascii_witness :
  (runes [x68; x0a] = map byteValue [x68; x0a]
   /\ length (runes [x68; x0a]) = length [x68; x0a])
  /\ runesLoop 7 [x68; x0a] = runes [x68; x0a].
Proof.
  split.
  - apply (proj1 (runes_ascii [x68; x0a])). repeat constructor.
  - apply (proj2 (runes_ascii [x68; x0a])). cbn. lia.
Defined.

(** ** Words that are no instruction *)

(** X12: when the word under the counter resolves to a value outside
    0..21 the process dies on the fatal "Unknown opcode" log call, which
    reports the resolved value, the raw word and the address; when the word
    itself is 32776 or more it dies on the fatal "Invalid value" call.  The
    machine and the console are untouched in both cases. *)
Theorem unknown_opcode (vm : VirtualMachine) (io : Console) (n0 : Z) :
  index (memory vm) (memoryIndex vm) = Some n0 ->
  (forall opcode : Z, resolvesTo vm n0 opcode -> ~ 0 <= opcode <= 21 ->
     step (vm, io) =
     (Crashed (UnknownOpcode opcode n0 (memoryIndex vm)), (vm, io)))
  /\ (32776 <= n0 -> step (vm, io) = (Crashed (InvalidValue n0), (vm, io))).
Proof.
  intros H0. split.
  - intros opcode Hop Hunknown. unfold step.
    erewrite bind_Continue by (apply current_at; exact H0).
    erewrite bind_Continue by (apply Hop).
    rewrite execute_unknown by exact Hunknown.
    erewrite bind_Crashed; [reflexivity|].
    erewrite bind_Continue by (apply current_at; exact H0).
    reflexivity.
  - intros Hbig. unfold step.
    erewrite bind_Continue by (apply current_at; exact H0).
    erewrite bind_Crashed; [reflexivity|].
    unfold toValue. destruct (32776 <=? n0) eqn:E; [reflexivity|]. vm_bool. lia.
Qed.

Lemma unknown_opcode_witness :
  step (unknownMachine, emptyConsole) =
    (Crashed (UnknownOpcode 22 22 (memoryIndex unknownMachine)),
     (unknownMachine, emptyConsole))
  /\ step (invalidMachine, emptyConsole) =
    (Crashed (InvalidValue 40000), (invalidMachine, emptyConsole)).
Proof.
  split.
  - refine (proj1 (unknown_opcode unknownMachine emptyConsole 22 _) 22 _ _).
    + vm_compute. reflexivity.
    + intros io. reflexivity.
    + lia.
  - refine (proj2 (unknown_opcode invalidMachine emptyConsole 40000 _) _).
    + vm_compute. reflexivity.
    + lia.
Defined.

(** ** What every loop iteration keeps *)

(** The fetch and the decoding of the opcode either fail, leaving the
    state as it is, or deliver the opcode of the instruction. *)
Lemma step_fetch (vm : VirtualMachine) (io : Console) :
  (exists f, step (vm, io) = (Crashed f, (vm, io)))
  \/ (exists n0 opcode,
        index (memory vm) (memoryIndex vm) = Some n0 /\ resolvesTo vm n0 opcode).
Proof.
  destruct (index (memory vm) (memoryIndex vm)) as [n0|] eqn:H0.
  - destruct (toValue n0 (vm, io)) as [[opcode| |f] s1] eqn:Hv.
    + right. exists n0, opcode. split; [reflexivity|].
      intros io'. revert Hv. unfold toValue.
      destruct (32776 <=? n0); [discriminate|].
      destruct (modulo <=? n0); [|intros Hv; inversion Hv; reflexivity].
      vm_unfold. vm_fields.
      destruct (index (registers vm) (toRegisterIndex n0));
        intros Hv; inversion Hv; reflexivity.
    + exfalso. revert Hv. unfold toValue. vm_unfold. vm_cases; discriminate.
    + left. exists f. unfold step.
      erewrite bind_Continue by (apply current_at; exact H0).
      erewrite bind_Crashed; [reflexivity|].
      rewrite Hv. f_equal. revert Hv. unfold toValue. vm_unfold.
      vm_cases; intros Hv; inversion Hv; reflexivity.
  - left. eexists. unfold step. erewrite bind_Crashed; [reflexivity|].
    vm_unfold. vm_fields. rewrite H0. reflexivity.
Qed.

Lemma opcode_range_cases (opcode : Z) :
  0 <= opcode <= 21 \/ ~ 0 <= opcode <= 21.
Proof. lia. Qed.

(** Every way in which the instruction of hypothesis [H] can go, for every
    opcode and for the words that are none. *)
Ltac all_opcodes H tac :=
  match type of H with
  | execute ?opcode _ = _ =>
      let Hr := fresh "Hr" in
      destruct (opcode_range_cases opcode) as [Hr|Hr];
      [opcode_split Hr; cbn [execute] in H
      |rewrite (execute_unknown opcode Hr) in H];
      vm_invert H; tac
  end.

Lemma execute_shape (opcode : Z) (vm vm1 : VirtualMachine) (io io1 : Console)
    (o : Outcome unit) :
  execute opcode (vm, io) = (o, (vm1, io1)) ->
  length (memory vm1) = length (memory vm)
  /\ length (registers vm1) = length (registers vm).
Proof.
  intros H. all_opcodes H ltac:(rewrite ?length_insert; split; reflexivity).
Qed.

Lemma step_shape (vm vm1 : VirtualMachine) (io io1 : Console) (o : Outcome unit) :
  step (vm, io) = (o, (vm1, io1)) ->
  length (memory vm1) = length (memory vm)
  /\ length (registers vm1) = length (registers vm).
Proof.
  intros H. destruct (step_fetch vm io) as [[f Hf]|(n0 & opcode & H0 & Hop)].
  - rewrite Hf in H. inversion H; subst. split; reflexivity.
  - destruct (step_decompose vm vm1 io io1 n0 opcode o H0 Hop H)
      as (o2 & vm2 & Hexec & Hm & Hr & _).
    destruct (execute_shape opcode vm vm2 io io1 o2 Hexec) as [Hm2 Hr2].
    split; congruence.
Qed.

(** X13: the constructor builds a machine with 32767 memory words and 8
    registers, and a run of any length, however it ends, leaves a machine
    of that shape: no instruction grows or shrinks the two arrays. *)
Theorem Run_keeps_shape :
  (forall program : list Z, wellFormed (NewVirtualMachine program))
  /\ (forall (fuel : nat) (vm : VirtualMachine) (io : Console),
        wellFormed vm -> wellFormed (fst (snd (Run fuel (vm, io))))).
Proof.
  split; [exact NewVirtualMachine_wellFormed|].
  induction fuel as [|fuel IH]; intros vm io Hwf; [exact Hwf|].
  cbn [Run]. unfold bind.
  destruct (step (vm, io)) as [o [vm1 io1]] eqn:Hstep.
  destruct (step_shape vm vm1 io io1 o Hstep) as [Hm Hr].
  assert (Hwf1 : wellFormed vm1) by (destruct Hwf; split; congruence).
  destruct o as [[]| |f]; [apply IH; exact Hwf1|exact Hwf1|exact Hwf1].
Qed.

Lemma Run_keeps_shape_witness :
  wellFormed (fst (snd (Run 3 (printMachine, emptyConsole)))).
Proof.
  apply (proj2 Run_keeps_shape 3%nat printMachine emptyConsole).
  apply (proj1 Run_keeps_shape).
Defined.

Lemma execute_console (opcode : Z) (vm vm1 : VirtualMachine) (io io1 : Console)
    (o : Outcome unit) :
  execute opcode (vm, io) = (o, (vm1, io1)) ->
  (opcode <> 19 -> stdout io1 = stdout io)
  /\ (opcode <> 20 -> stdin io1 = stdin io /\ input vm1 = input vm)
  /\ (~ In opcode destinationOpcodes -> registers vm1 = registers vm)
  /\ (exists l, stdout io1 = stdout io ++ l /\ (length l <= 1)%nat).
Proof.
  intros H.
  all_opcodes H ltac:(
    split; [intros; first [reflexivity|congruence]|];
    split; [intros; first [split; reflexivity|congruence]|];
    split; [intros Hn; first [reflexivity|exfalso; apply Hn; cbn; tauto]|];
    first [exists []; rewrite app_nil_r; split; [reflexivity|cbn; lia]
          |eexists [_]; split; [reflexivity|cbn; lia]]).
Qed.

(** X14: a loop iteration writes to the output only on [out] (opcode 19),
    reads standard input or changes the input buffer only on [in] (20), and
    changes a register only on the twelve opcodes that have a destination
    operand; this holds however the iteration ends. *)
Theorem console_and_register_frame (vm vm1 : VirtualMachine) (io io1 : Console)
    (n0 opcode : Z) (o : Outcome unit) :
  index (memory vm) (memoryIndex vm) = Some n0 -> resolvesTo vm n0 opcode ->
  step (vm, io) = (o, (vm1, io1)) ->
  (opcode <> 19 -> stdout io1 = stdout io)
  /\ (opcode <> 20 -> stdin io1 = stdin io /\ input vm1 = input vm)
  /\ (~ In opcode destinationOpcodes -> registers vm1 = registers vm).
Proof.
  intros H0 Hop Hstep.
  destruct (step_decompose vm vm1 io io1 n0 opcode o H0 Hop Hstep)
    as (o2 & vm2 & Hexec & _ & Hr & _ & Hi & _).
  destruct (execute_console opcode vm vm2 io io1 o2 Hexec)
    as (Hout & Hin & Hregs & _).
  split; [exact Hout|]. split.
  - intros Hn. destruct (Hin Hn). split; congruence.
  - intros Hn. rewrite Hr. now apply Hregs.
Qed.

Lemma console_and_register_frame_witness :
  stdout (snd (snd (step (addMachine, emptyConsole)))) = stdout emptyConsole
  /\ stdin (snd (snd (step (addMachine, emptyConsole)))) = stdin emptyConsole
  /\ registers (fst (snd (step (outMachine, emptyConsole)))) = registers outMachine.
Proof.
  destruct (console_and_register_frame addMachine _ emptyConsole _ 9 9 _
              ltac:(vm_compute; reflexivity) ltac:(intros io; reflexivity)
              (run_eta (step (addMachine, emptyConsole))))
    as (Hout & Hin & _).
  destruct (console_and_register_frame outMachine _ emptyConsole _ 19 19 _
              ltac:(vm_compute; reflexivity) ltac:(intros io; reflexivity)
              (run_eta (step (outMachine, emptyConsole))))
    as (_ & _ & Hregs).
  split; [apply Hout; lia|]. split; [apply Hin; lia|].
  apply Hregs. cbn. lia.
Defined.

Lemma step_output (vm vm1 : VirtualMachine) (io io1 : Console) (o : Outcome unit) :
  step (vm, io) = (o, (vm1, io1)) ->
  exists l, stdout io1 = stdout io ++ l /\ (length l <= 1)%nat.
Proof.
  intros H. destruct (step_fetch vm io) as [[f Hf]|(n0 & opcode & H0 & Hop)].
  - rewrite Hf in H. inversion H; subst. exists []. rewrite app_nil_r.
    split; [reflexivity|cbn; lia].
  - destruct (step_decompose vm vm1 io io1 n0 opcode o H0 Hop H)
      as (o2 & vm2 & Hexec & _).
    now destruct (execute_console opcode vm vm2 io io1 o2 Hexec) as (_ & _ & _ & Hl).
Qed.

(** X15: output is only ever appended: after a run of at most [fuel]
    instructions from any state, however it ends, the output is the former
    output followed by at most [fuel] characters. *)
Theorem Run_output_grows (fuel : nat) (vm : VirtualMachine) (io : Console) :
  exists l, stdout (snd (snd (Run fuel (vm, io)))) = stdout io ++ l
            /\ (length l <= fuel)%nat.
Proof.
  revert vm io. induction fuel as [|fuel IH]; intros vm io.
  - exists []. cbn. rewrite app_nil_r. split; [reflexivity|lia].
  - cbn [Run]. unfold bind.
    destruct (step (vm, io)) as [o [vm1 io1]] eqn:Hstep.
    destruct (step_output vm vm1 io io1 o Hstep) as (l & Hl & Hlen).
    destruct o as [[]| |f].
    + destruct (IH vm1 io1) as (l' & Hl' & Hlen').
      exists (l ++ l'). rewrite Hl', Hl, app_assoc. split; [reflexivity|].
      rewrite length_app. lia.
    + exists l. cbn [snd]. split; [exact Hl|lia].
    + exists l. cbn [snd]. split; [exact Hl|lia].
Qed.

(** X22: a jump to its own address keeps the loop running for ever: when
    the word under the counter resolves to the opcode of [jmp] and its
    operand resolves to the address of the instruction itself, the machine
    is still running, in the state it started in, after any number of
    iterations. *)
Theorem self_jump_never_stops (vm : VirtualMachine) (io : Console) (n0 n : Z)
    (fuel : nat) :
  index (memory vm) (memoryIndex vm) = Some n0 -> resolvesTo vm n0 6 ->
  index (memory vm) (memoryIndex vm + 1) = Some n ->
  resolvesTo vm n (memoryIndex vm) ->
  Run fuel (vm, io) = (Continue tt, (vm, io)).
Proof.
  intros H0 Hop Hn Ht.
  assert (Hstep : step (vm, io) = (Continue tt, (vm, io))).
  { assert (Hjump : jumpsTo vm io (memoryIndex vm)).
    { apply (step_jump vm io n0 6 (memoryIndex vm) H0 Hop).
      cbn [execute]. now apply (jump_run vm io n). }
    rewrite (proj1 Hjump n0 H0). now destruct vm. }
  induction fuel as [|fuel IH]; [reflexivity|].
  cbn [Run]. erewrite bind_Continue by exact Hstep. exact IH.
Qed.

Lemma self_jump_never_stops_witness :
  Run 5 (loopMachine, emptyConsole) = (Continue tt, (loopMachine, emptyConsole)).
Proof.
  apply (self_jump_never_stops loopMachine emptyConsole 6 0 5).
  - vm_compute. reflexivity.
  - intros io. reflexivity.
  - vm_compute. reflexivity.
  - intros io. reflexivity.
Defined.

Lemma take_last (l : list Z) (z : Z) :
  l !! (length l - 1)%nat = Some z -> l = take (length l - 1) l ++ [z].
Proof.
  intros H. pose proof (lookup_lt_Some _ _ _ H) as Hlt.
  rewrite <- (take_S_r l _ z H).
  replace (S (length l - 1)) with (length l) by lia.
  symmetry. apply firstn_all.
Qed.

Lemma execute_stack (opcode : Z) (vm vm1 : VirtualMachine) (io io1 : Console)
    (o : Outcome unit) :
  execute opcode (vm, io) = (o, (vm1, io1)) ->
  stack vm1 = stack vm
  \/ (exists v, stack vm1 = stack vm ++ [v])
  \/ (exists v, stack vm = stack vm1 ++ [v]).
Proof.
  intros H.
  all_opcodes H ltac:(
    first [left; reflexivity
          |right; left; eexists; reflexivity
          |right; right; eexists; apply take_last; eassumption]).
Qed.

(** X17: a loop iteration, whatever its instruction and however it ends,
    leaves the stack as it was, or with one more element on top, or with its
    top element removed; the elements below the top are never changed. *)
Theorem stack_discipline (vm vm1 : VirtualMachine) (io io1 : Console)
    (o : Outcome unit) :
  step (vm, io) = (o, (vm1, io1)) ->
  stack vm1 = stack vm
  \/ (exists v, stack vm1 = stack vm ++ [v])
  \/ (exists v, stack vm = stack vm1 ++ [v]).
Proof.
  intros H. destruct (step_fetch vm io) as [[f Hf]|(n0 & opcode & H0 & Hop)].
  - rewrite Hf in H. inversion H; subst. left. reflexivity.
  - destruct (step_decompose vm vm1 io io1 n0 opcode o H0 Hop H)
      as (o2 & vm2 & Hexec & _ & _ & Hs & _).
    rewrite Hs. exact (execute_stack opcode vm vm2 io io1 o2 Hexec).
Qed.

Lemma stack_discipline_witness :
  stack (fst (snd (step (pushMachine, emptyConsole)))) = stack pushMachine
  \/ (exists v, stack (fst (snd (step (pushMachine, emptyConsole)))) =
                stack pushMachine ++ [v])
  \/ (exists v, stack pushMachine =
                stack (fst (snd (step (pushMachine, emptyConsole)))) ++ [v]).
Proof.
  exact (stack_discipline pushMachine _ emptyConsole _ _
           (run_eta (step (pushMachine, emptyConsole)))).
Defined.

Lemma arithmetic_result (opcode : Z) (vm vm1 : VirtualMachine) (io io1 : Console) :
  In opcode arithmeticOpcodes ->
  execute opcode (vm, io) = (Continue tt, (vm1, io1)) ->
  exists w v, index (memory vm) (memoryIndex vm + 1) = Some w
              /\ registers vm1 = <[Z.to_nat (w - 32768) := v]> (registers vm)
              /\ 0 <= w - 32768 < Z.of_nat (length (registers vm))
              /\ 0 <= v <= 32767.
Proof.
  intros Hin H. cbn [In arithmeticOpcodes] in Hin.
  repeat (destruct Hin as [Hin|Hin]); [subst..|contradiction]; cbn [execute] in H.
  all: vm_invert H; vm_bool; unfold toRegisterIndex, modulo in *.
  all: eexists _, _; split; [first [eassumption|reflexivity]|];
    split; [reflexivity|]; split; [lia|];
    first [lia | match goal with |- 0 <= ?x mod 32768 <= 32767 =>
                   pose proof (Z.mod_pos_bound x 32768 ltac:(lia)); lia end].
Qed.

(** X18: whatever the values of its operands, a completed [eq], [gt],
    [add], [mult], [mod], [and], [or] or [not] leaves a value of
    [0, 32767] in its destination register, and only there. *)
Theorem arithmetic_stays_in_range (vm vm1 : VirtualMachine) (io io1 : Console)
    (n0 opcode : Z) :
  index (memory vm) (memoryIndex vm) = Some n0 -> resolvesTo vm n0 opcode ->
  In opcode arithmeticOpcodes ->
  step (vm, io) = (Continue tt, (vm1, io1)) ->
  exists w v, index (memory vm) (memoryIndex vm + 1) = Some w
              /\ registers vm1 = <[Z.to_nat (w - 32768) := v]> (registers vm)
              /\ registers vm1 !! Z.to_nat (w - 32768) = Some v
              /\ 0 <= v <= 32767.
Proof.
  intros H0 Hop Hin Hstep.
  destruct (step_inversion vm vm1 io io1 n0 opcode H0 Hop Hstep) as (vm2 & Hexec & ->).
  destruct (arithmetic_result opcode vm vm2 io io1 Hin Hexec)
    as (w & v & Hw & Hregs & Hrange & Hv).
  exists w, v. vm_fields. split; [exact Hw|]. split; [exact Hregs|].
  split; [|exact Hv]. rewrite Hregs. apply list_lookup_insert_eq. lia.
Qed.

Lemma arithmetic_stays_in_range_witness :
  exists w v,
    index (memory addMachine) (memoryIndex addMachine + 1) = Some w
    /\ registers (fst (snd (step (addMachine, emptyConsole)))) =
       <[Z.to_nat (w - 32768) := v]> (registers addMachine)
    /\ registers (fst (snd (step (addMachine, emptyConsole)))) !! Z.to_nat (w - 32768)
       = Some v
    /\ 0 <= v <= 32767.
Proof.
  refine (arithmetic_stays_in_range addMachine _ emptyConsole _ 9 9 _ _ _ _).
  - vm_compute. reflexivity.
  - intros io. reflexivity.
  - cbn. tauto.
  - apply continue_eta. vm_compute. reflexivity.
Defined.
